(** * Six Thinking Hats: the client of frontend/src/App.jsx

    A shallow embedding of the React component [App] and of the helper
    [buildStructuredText], with the requests the component issues made
    explicit.  JavaScript strings are sequences of UTF-16 code units, a
    JavaScript object used as a dictionary is a [gmap], and the component's
    [useState] cells are the fields of one record that every handler
    threads through. *)

From Stdlib Require Import String Ascii.
From stdpp Require Import gmap list fin_maps.

Local Open Scope N_scope.

(** ** JavaScript strings *)

Module Js.

(** A string value: its UTF-16 code units. *)
Abbreviation str := (list N).

(** The code units of a source literal (all literals of the file are ASCII). *)
Definition lit (s : string) : str :=
  List.map N_of_ascii (list_ascii_of_string s).

(** ECMAScript WhiteSpace and LineTerminator, the code units that
    [String.prototype.trim] strips. *)
Definition is_ws (c : N) : bool :=
  ((9 <=? c) && (c <=? 13))
  || (c =? 32) || (c =? 160) || (c =? 5760)
  || ((8192 <=? c) && (c <=? 8202))
  || (c =? 8232) || (c =? 8233) || (c =? 8239) || (c =? 8287)
  || (c =? 12288) || (c =? 65279).

Fixpoint trimStart (s : str) : str :=
  match s with
  | c :: s' => if is_ws c then trimStart s' else s
  | [] => []
  end.

Definition trimEnd (s : str) : str := rev (trimStart (rev s)).

Definition trim (s : str) : str := trimEnd (trimStart s).

(** ToBoolean on a string: only the empty string is falsy. *)
Definition truthy (s : str) : bool :=
  match s with [] => false | _ :: _ => true end.

(** [a || b] on strings. *)
Definition or_else (a b : str) : str := if truthy a then a else b.

(** [Array.prototype.join]. *)
Fixpoint join (sep : str) (parts : list str) : str :=
  match parts with
  | [] => []
  | [p] => p
  | p :: rest => p ++ sep ++ join sep rest
  end.

Definition newline : str := [10].

End Js.

(** ** The hats table *)

Record Hat := {
  key : Js.str;
  label : Js.str;
  description : Js.str;
  prompt : Js.str
}.

Definition HATS : list Hat := [
  {| key := Js.lit "blue"; label := Js.lit "Blue";
     description := Js.lit "Big picture & facilitation";
     prompt := Js.lit "Manage the process: clarify the purpose, question, scope, priorities, and the hat sequence." |};
  {| key := Js.lit "white"; label := Js.lit "White";
     description := Js.lit "Facts & information";
     prompt := Js.lit "List what is known, what is assumed, and what information/data is needed next." |};
  {| key := Js.lit "red"; label := Js.lit "Red";
     description := Js.lit "Feelings & intuitions";
     prompt := Js.lit "Surface gut reactions, hopes, fears, and stakeholder emotions (no justification needed)." |};
  {| key := Js.lit "yellow"; label := Js.lit "Yellow";
     description := Js.lit "Benefits & opportunities";
     prompt := Js.lit "Identify value, upsides, and conditions under which the idea is likely to succeed." |};
  {| key := Js.lit "black"; label := Js.lit "Black";
     description := Js.lit "Risks & failure modes";
     prompt := Js.lit "Identify what could go wrong, constraints, unintended consequences, and minimum safety conditions." |};
  {| key := Js.lit "green"; label := Js.lit "Green";
     description := Js.lit "New ideas & alternatives";
     prompt := Js.lit "Generate options, improvements, lateral provocations, and quick experiments (no criticism)." |}
].

Definition API_PREFIX : Js.str := Js.lit "/api".

Definition EXAMPLE_TOPIC : Js.str :=
  Js.lit "We are considering replacing traditional closed-book exams with open-book, AI-assisted assessments in a university module."
  ++ [10; 10]
  ++ Js.lit "We want to decide whether to adopt this change next semester, and if so, how to implement it responsibly.".

(** ** buildStructuredText *)

(** The argument object.  A property may be missing or null, which is what
    the optional chaining [topic?.trim()] guards against: [None]. *)
Record Fields := {
  f_topic : option Js.str;
  f_decision : option Js.str;
  f_stakeholders : option Js.str;
  f_constraints : option Js.str;
  f_context : option Js.str
}.

(** [x?.trim()] used as a condition. *)
Definition has_text (x : option Js.str) : bool :=
  match x with
  | Some s => Js.truthy (Js.trim s)
  | None => false
  end.

(** [x.trim()] in the branch that [has_text] guards. *)
Definition trimmed (x : option Js.str) : Js.str :=
  match x with
  | Some s => Js.trim s
  | None => []
  end.

Definition H_topic : Js.str := Js.lit "# Topic / Problem Statement".
Definition H_decision : Js.str := Js.lit "# Decision to make (Blue Hat)".
Definition H_stakeholders : Js.str := Js.lit "# Stakeholders".
Definition H_constraints : Js.str := Js.lit "# Constraints / Non-negotiables".
Definition H_context : Js.str := Js.lit "# Context (optional)".

(** The three [lines.push] calls of one [if]. *)
Definition push_section (heading : Js.str) (x : option Js.str)
    (lines : list Js.str) : list Js.str :=
  if has_text x then lines ++ [heading; trimmed x; []] else lines.

Definition buildStructuredText (r : Fields) : Js.str :=
  let lines := [] in
  let lines := push_section H_topic (f_topic r) lines in
  let lines := push_section H_decision (f_decision r) lines in
  let lines := push_section H_stakeholders (f_stakeholders r) lines in
  let lines := push_section H_constraints (f_constraints r) lines in
  let lines := push_section H_context (f_context r) lines in
  Js.trim (Js.join Js.newline lines).

(** ** The data the client exchanges with the server *)

(** Modelled from the spec: the HatRole and HatResult of the data model
    (section 3).  The backend that declares and fills them is not part of
    the source tree; the client only reads [status], [content] and
    [message] of the entry stored under a hat key. *)
Inductive HatRole := blue | white | red | yellow | black | green.

Inductive Status := StatusOk | StatusError.

Record HatResult := {
  role : HatRole;
  status : Status;
  content : Js.str;
  message : Js.str
}.

(** The [analysis] object of a response: hat key to result. *)
Abbreviation AnalysisResult := (gmap Js.str HatResult).

(** The notes object: hat key to free text. *)
Abbreviation Notes := (gmap Js.str Js.str).

(** A browser [File] picked in the upload control. *)
Record File := {
  name : Js.str;
  bytes : list N
}.

(** What is put in a request body, before [JSON.stringify] or the
    multipart encoding of [FormData] serialises it. *)
Inductive Value :=
| VString (s : Js.str)
| VAnalysis (a : AnalysisResult)
| VNotes (n : Notes)
| VFile (f : File).

Inductive Body :=
| JsonBody (props : list (Js.str * Value))
| FormBody (entries : list (Js.str * Value)).

(** The arguments of one [fetch] call. *)
Record Request := {
  url : Js.str;
  method : Js.str;
  headers : list (Js.str * Js.str);
  body : Body
}.

(** How the awaited [fetch] of handleAnalyze settles. *)
Inductive AnalyzeOutcome :=
| Rejected (err_message : Js.str)
    (* something threw: fetch, response.json() of an ok response, or the
       property read on a body that is JSON null (of a non-ok response,
       [detail.detail]; of an ok one, [data.analysis]); [err.message] *)
| NotOk (detail : option Js.str)
    (* !response.ok and [detail.detail] is a string, or is falsy or absent
       (the body is not JSON, is not an object or has no such property,
       or holds null, false or 0 there): [None] *)
| NotOkOther (detail_text : Js.str)
    (* !response.ok and [detail.detail] is a truthy value that is not a
       string (an array, an object, a number, true); [String(detail.detail)],
       which is what [new Error(detail.detail).message] holds and which is
       empty for an empty array *)
| Ok200 (data_analysis : option AnalysisResult)
        (meta_answer_length : option Js.str).
    (* [data.analysis] and [data?.meta?.answer_length] *)

(** How the awaited [fetch] of handleDownload settles. *)
Inductive DownloadOutcome :=
| DownloadRejected (err_message : Js.str)
| DownloadNotOk
| DownloadOk.

(** ** Component state: one field per [useState] cell *)

Record State := {
  mode : Js.str;
  topic : Js.str;
  decision : Js.str;
  stakeholders : Js.str;
  constraints : Js.str;
  context : Js.str;
  fileValue : option File;
  analysis : option AnalysisResult;
  selectedHat : Js.str;
  loading : bool;
  error : Js.str;
  downloadLoading : bool;
  answerLength : Js.str;
  notesByHat : Notes;
  isMobile : bool;
  hatMenuOpen : bool
}.

Definition setMode v st :=
  {| mode := v; topic := topic st; decision := decision st;
     stakeholders := stakeholders st; constraints := constraints st;
     context := context st; fileValue := fileValue st;
     analysis := analysis st; selectedHat := selectedHat st;
     loading := loading st; error := error st;
     downloadLoading := downloadLoading st; answerLength := answerLength st;
     notesByHat := notesByHat st; isMobile := isMobile st;
     hatMenuOpen := hatMenuOpen st |}.

Definition setTopic v st :=
  {| mode := mode st; topic := v; decision := decision st;
     stakeholders := stakeholders st; constraints := constraints st;
     context := context st; fileValue := fileValue st;
     analysis := analysis st; selectedHat := selectedHat st;
     loading := loading st; error := error st;
     downloadLoading := downloadLoading st; answerLength := answerLength st;
     notesByHat := notesByHat st; isMobile := isMobile st;
     hatMenuOpen := hatMenuOpen st |}.

Definition setDecision v st :=
  {| mode := mode st; topic := topic st; decision := v;
     stakeholders := stakeholders st; constraints := constraints st;
     context := context st; fileValue := fileValue st;
     analysis := analysis st; selectedHat := selectedHat st;
     loading := loading st; error := error st;
     downloadLoading := downloadLoading st; answerLength := answerLength st;
     notesByHat := notesByHat st; isMobile := isMobile st;
     hatMenuOpen := hatMenuOpen st |}.

Definition setStakeholders v st :=
  {| mode := mode st; topic := topic st; decision := decision st;
     stakeholders := v; constraints := constraints st;
     context := context st; fileValue := fileValue st;
     analysis := analysis st; selectedHat := selectedHat st;
     loading := loading st; error := error st;
     downloadLoading := downloadLoading st; answerLength := answerLength st;
     notesByHat := notesByHat st; isMobile := isMobile st;
     hatMenuOpen := hatMenuOpen st |}.

Definition setConstraints v st :=
  {| mode := mode st; topic := topic st; decision := decision st;
     stakeholders := stakeholders st; constraints := v;
     context := context st; fileValue := fileValue st;
     analysis := analysis st; selectedHat := selectedHat st;
     loading := loading st; error := error st;
     downloadLoading := downloadLoading st; answerLength := answerLength st;
     notesByHat := notesByHat st; isMobile := isMobile st;
     hatMenuOpen := hatMenuOpen st |}.

Definition setContext v st :=
  {| mode := mode st; topic := topic st; decision := decision st;
     stakeholders := stakeholders st; constraints := constraints st;
     context := v; fileValue := fileValue st;
     analysis := analysis st; selectedHat := selectedHat st;
     loading := loading st; error := error st;
     downloadLoading := downloadLoading st; answerLength := answerLength st;
     notesByHat := notesByHat st; isMobile := isMobile st;
     hatMenuOpen := hatMenuOpen st |}.

Definition setFileValue v st :=
  {| mode := mode st; topic := topic st; decision := decision st;
     stakeholders := stakeholders st; constraints := constraints st;
     context := context st; fileValue := v;
     analysis := analysis st; selectedHat := selectedHat st;
     loading := loading st; error := error st;
     downloadLoading := downloadLoading st; answerLength := answerLength st;
     notesByHat := notesByHat st; isMobile := isMobile st;
     hatMenuOpen := hatMenuOpen st |}.

Definition setAnalysis v st :=
  {| mode := mode st; topic := topic st; decision := decision st;
     stakeholders := stakeholders st; constraints := constraints st;
     context := context st; fileValue := fileValue st;
     analysis := v; selectedHat := selectedHat st;
     loading := loading st; error := error st;
     downloadLoading := downloadLoading st; answerLength := answerLength st;
     notesByHat := notesByHat st; isMobile := isMobile st;
     hatMenuOpen := hatMenuOpen st |}.

Definition setSelectedHat v st :=
  {| mode := mode st; topic := topic st; decision := decision st;
     stakeholders := stakeholders st; constraints := constraints st;
     context := context st; fileValue := fileValue st;
     analysis := analysis st; selectedHat := v;
     loading := loading st; error := error st;
     downloadLoading := downloadLoading st; answerLength := answerLength st;
     notesByHat := notesByHat st; isMobile := isMobile st;
     hatMenuOpen := hatMenuOpen st |}.

Definition setLoading v st :=
  {| mode := mode st; topic := topic st; decision := decision st;
     stakeholders := stakeholders st; constraints := constraints st;
     context := context st; fileValue := fileValue st;
     analysis := analysis st; selectedHat := selectedHat st;
     loading := v; error := error st;
     downloadLoading := downloadLoading st; answerLength := answerLength st;
     notesByHat := notesByHat st; isMobile := isMobile st;
     hatMenuOpen := hatMenuOpen st |}.

Definition setError v st :=
  {| mode := mode st; topic := topic st; decision := decision st;
     stakeholders := stakeholders st; constraints := constraints st;
     context := context st; fileValue := fileValue st;
     analysis := analysis st; selectedHat := selectedHat st;
     loading := loading st; error := v;
     downloadLoading := downloadLoading st; answerLength := answerLength st;
     notesByHat := notesByHat st; isMobile := isMobile st;
     hatMenuOpen := hatMenuOpen st |}.

Definition setDownloadLoading v st :=
  {| mode := mode st; topic := topic st; decision := decision st;
     stakeholders := stakeholders st; constraints := constraints st;
     context := context st; fileValue := fileValue st;
     analysis := analysis st; selectedHat := selectedHat st;
     loading := loading st; error := error st;
     downloadLoading := v; answerLength := answerLength st;
     notesByHat := notesByHat st; isMobile := isMobile st;
     hatMenuOpen := hatMenuOpen st |}.

Definition setAnswerLength v st :=
  {| mode := mode st; topic := topic st; decision := decision st;
     stakeholders := stakeholders st; constraints := constraints st;
     context := context st; fileValue := fileValue st;
     analysis := analysis st; selectedHat := selectedHat st;
     loading := loading st; error := error st;
     downloadLoading := downloadLoading st; answerLength := v;
     notesByHat := notesByHat st; isMobile := isMobile st;
     hatMenuOpen := hatMenuOpen st |}.

(** [setNotesByHat] takes an updater, as the component calls it. *)
Definition setNotesByHat (f : Notes → Notes) st :=
  {| mode := mode st; topic := topic st; decision := decision st;
     stakeholders := stakeholders st; constraints := constraints st;
     context := context st; fileValue := fileValue st;
     analysis := analysis st; selectedHat := selectedHat st;
     loading := loading st; error := error st;
     downloadLoading := downloadLoading st; answerLength := answerLength st;
     notesByHat := f (notesByHat st); isMobile := isMobile st;
     hatMenuOpen := hatMenuOpen st |}.

Definition setIsMobile v st :=
  {| mode := mode st; topic := topic st; decision := decision st;
     stakeholders := stakeholders st; constraints := constraints st;
     context := context st; fileValue := fileValue st;
     analysis := analysis st; selectedHat := selectedHat st;
     loading := loading st; error := error st;
     downloadLoading := downloadLoading st; answerLength := answerLength st;
     notesByHat := notesByHat st; isMobile := v;
     hatMenuOpen := hatMenuOpen st |}.

(** [setHatMenuOpen] also takes an updater ([v => !v] in the toggle). *)
Definition setHatMenuOpen (f : bool → bool) st :=
  {| mode := mode st; topic := topic st; decision := decision st;
     stakeholders := stakeholders st; constraints := constraints st;
     context := context st; fileValue := fileValue st;
     analysis := analysis st; selectedHat := selectedHat st;
     loading := loading st; error := error st;
     downloadLoading := downloadLoading st; answerLength := answerLength st;
     notesByHat := notesByHat st; isMobile := isMobile st;
     hatMenuOpen := f (hatMenuOpen st) |}.

(** ** Derived values of a render *)

(** [Object.fromEntries]: a later entry overrides an earlier one. *)
Definition fromEntries (entries : list (Js.str * Js.str)) : Notes :=
  foldl (λ m kv, <[kv.1 := kv.2]> m) ∅ entries.

Definition initial_state : State :=
  {| mode := Js.lit "text"; topic := []; decision := []; stakeholders := [];
     constraints := []; context := []; fileValue := None; analysis := None;
     selectedHat := Js.lit "blue"; loading := false; error := [];
     downloadLoading := false; answerLength := Js.lit "long";
     notesByHat := fromEntries (List.map (λ h, (key h, [])) HATS);
     isMobile := false; hatMenuOpen := false |}.

Definition structuredText (st : State) : Js.str :=
  buildStructuredText
    {| f_topic := Some (topic st); f_decision := Some (decision st);
       f_stakeholders := Some (stakeholders st);
       f_constraints := Some (constraints st);
       f_context := Some (context st) |}.

Definition isReadyToAnalyze (st : State) : bool :=
  if bool_decide (mode st = Js.lit "text")
  then (0 <? length (Js.trim (structuredText st)))%nat
  else match fileValue st with Some _ => true | None => false end.

(** [analysis?.[selectedHat]] *)
Definition activeAnalysis (st : State) : option HatResult :=
  a ← analysis st; a !! selectedHat st.

(** [HATS.find((h) => h.key === selectedHat)] *)
Definition activeHat (st : State) : option Hat :=
  List.find (λ h, bool_decide (key h = selectedHat st)) HATS.

(** ** Handlers: the new state and the [fetch] calls issued *)

Definition json_headers : list (Js.str * Js.str) :=
  [(Js.lit "Content-Type", Js.lit "application/json")].

(** The [fetch] of handleAnalyze, lines 124 to 139. *)
Definition analyze_request (st : State) : Request :=
  match (if bool_decide (mode st = Js.lit "pdf") then fileValue st else None) with
  | Some file =>
      {| url := API_PREFIX ++ Js.lit "/analyze"; method := Js.lit "POST";
         headers := [];
         body := FormBody [(Js.lit "file", VFile file);
                           (Js.lit "answer_length", VString (answerLength st))] |}
  | None =>
      {| url := API_PREFIX ++ Js.lit "/analyze"; method := Js.lit "POST";
         headers := json_headers;
         body := JsonBody [(Js.lit "text", VString (structuredText st));
                           (Js.lit "answer_length", VString (answerLength st))] |}
  end.

(** handleAnalyze up to its [await]. *)
Definition handleAnalyze (st : State) : State * list Request :=
  let st1 := setError [] st in
  if negb (isReadyToAnalyze st) then
    (setError (Js.lit "Please enter a topic/problem statement or upload a PDF to continue.") st1, [])
  else
    (setAnalysis None (setLoading true st1), [analyze_request st]).

(** handleAnalyze from the [await] on. *)
Definition handleAnalyze_settled (o : AnalyzeOutcome) (st : State) : State :=
  let fallback := Js.lit "Something went wrong. Please try again." in
  match o with
  | Ok200 data_analysis meta_answer_length =>
      let st := setAnalysis data_analysis st in
      let st := match meta_answer_length with
                | Some len => if Js.truthy len then setAnswerLength len st else st
                | None => st
                end in
      let st := setSelectedHat (Js.lit "blue") st in
      let st := setHatMenuOpen (λ _, false) st in
      setLoading false st
  | NotOk detail =>
      let thrown := Js.or_else (default [] detail)
                      (Js.lit "Analysis failed. Please try again.") in
      setLoading false (setError (Js.or_else thrown fallback) st)
  | NotOkOther detail_text =>
      setLoading false (setError (Js.or_else detail_text fallback) st)
  | Rejected err_message =>
      setLoading false (setError (Js.or_else err_message fallback) st)
  end.

(** handleDownload up to its [await]. *)
Definition handleDownload (st : State) : State * list Request :=
  match analysis st with
  | None => (st, [])
  | Some a =>
      (setDownloadLoading true st,
       [{| url := API_PREFIX ++ Js.lit "/generate-pdf"; method := Js.lit "POST";
           headers := json_headers;
           body := JsonBody [(Js.lit "analysis", VAnalysis a);
                             (Js.lit "answer_length", VString (answerLength st));
                             (Js.lit "notes", VNotes (notesByHat st))] |}])
  end.

(** handleDownload from the [await] on. *)
Definition handleDownload_settled (o : DownloadOutcome) (st : State) : State :=
  let fallback := Js.lit "Unable to download the report." in
  match o with
  | DownloadOk => setDownloadLoading false st
  | DownloadNotOk =>
      setDownloadLoading false
        (setError (Js.or_else (Js.lit "Failed to generate PDF report.") fallback) st)
  | DownloadRejected err_message =>
      setDownloadLoading false (setError (Js.or_else err_message fallback) st)
  end.

(** handleCopy; [clipboard_ok] says whether [writeText] resolved. *)
Definition handleCopy (clipboard_ok : bool) (st : State) : State :=
  match activeAnalysis st with
  | Some active =>
      match status active with
      | StatusOk =>
          if clipboard_ok then st
          else setError (Js.lit "Copy failed. Your browser may block clipboard access.") st
      | StatusError => st
      end
  | None => st
  end.

Definition setNotesForHat (hatKey value : Js.str) (st : State) : State :=
  setNotesByHat (λ prev, <[hatKey := value]> prev) st.

(** The [update] closure of the media-query effect. *)
Definition media_update (mobile : bool) (st : State) : State :=
  let st := setIsMobile mobile st in
  if negb mobile then setHatMenuOpen (λ _, false) st else st.

(** The "Use example" button. *)
Definition use_example (st : State) : State :=
  let st := setTopic EXAMPLE_TOPIC st in
  let st := setDecision (Js.lit "Decide whether to adopt AI-assisted open-book assessment next semester, and define an implementation approach.") st in
  let st := setStakeholders (Js.lit "Students; instructors; teaching assistants; programme administrators; accreditation stakeholders.") st in
  let st := setConstraints (Js.lit "Maintain academic integrity; ensure accessibility; comply with policy; limited marking capacity; semester timeline.") st in
  setContext (Js.lit "Recent student feedback suggests stress and rote learning; the module aims to emphasise applied reasoning and authentic work.") st.

(** ** The component as a transition system *)

Inductive Event :=
| ClickModeText
| ClickModePdf
| ClickLongAnswer
| ClickShortAnswer
| ChangeTopic (v : Js.str)
| ChangeDecision (v : Js.str)
| ChangeStakeholders (v : Js.str)
| ChangeConstraints (v : Js.str)
| ChangeContext (v : Js.str)
| ClickUseExample
| ChangeFile (picked : option File)
| ClickAnalyze
| AnalyzeSettled (o : AnalyzeOutcome)
| ClickDownload
| DownloadSettled (o : DownloadOutcome)
| ClickCopy (clipboard_ok : bool)
| ClickHatTab (hat : Hat)
| ClickActiveHatTab
| ClickOtherHatTab (hat : Hat)
| MediaQueryUpdate (mobile : bool)
| ChangeNotes (v : Js.str)
| ClickClearNotes.

Definition handle (ev : Event) (st : State) : State * list Request :=
  match ev with
  | ClickModeText => (setMode (Js.lit "text") st, [])
  | ClickModePdf => (setMode (Js.lit "pdf") st, [])
  | ClickLongAnswer => (setAnswerLength (Js.lit "long") st, [])
  | ClickShortAnswer => (setAnswerLength (Js.lit "short") st, [])
  | ChangeTopic v => (setTopic v st, [])
  | ChangeDecision v => (setDecision v st, [])
  | ChangeStakeholders v => (setStakeholders v st, [])
  | ChangeConstraints v => (setConstraints v st, [])
  | ChangeContext v => (setContext v st, [])
  | ClickUseExample => (use_example st, [])
  | ChangeFile picked => (setFileValue picked st, [])
  | ClickAnalyze => handleAnalyze st
  | AnalyzeSettled o => (handleAnalyze_settled o st, [])
  | ClickDownload => handleDownload st
  | DownloadSettled o => (handleDownload_settled o st, [])
  | ClickCopy clipboard_ok => (handleCopy clipboard_ok st, [])
  | ClickHatTab hat => (setSelectedHat (key hat) st, [])
  | ClickActiveHatTab =>
      (match analysis st with
       | Some _ => setHatMenuOpen negb st
       | None => st
       end, [])
  | ClickOtherHatTab hat =>
      (setHatMenuOpen (λ _, false) (setSelectedHat (key hat) st), [])
  | MediaQueryUpdate mobile => (media_update mobile st, [])
  | ChangeNotes v => (setNotesForHat (selectedHat st) v st, [])
  | ClickClearNotes => (setNotesForHat (selectedHat st) [] st, [])
  end.

(** Which events the rendered page can deliver: a control must be rendered
    (the mode and mobile conditionals, the [HATS.map] and [HATS.filter]
    loops) and not [disabled]; a settlement needs its request in flight. *)
Definition enabled (ev : Event) (st : State) : Prop :=
  match ev with
  | ChangeTopic _ | ChangeDecision _ | ChangeStakeholders _
  | ChangeConstraints _ | ChangeContext _ | ClickUseExample =>
      mode st = Js.lit "text"
  | ChangeFile _ => mode st ≠ Js.lit "text"
  | ClickAnalyze => loading st = false
  | AnalyzeSettled _ => loading st = true
  | ClickDownload => is_Some (analysis st) ∧ downloadLoading st = false
  | DownloadSettled _ => downloadLoading st = true
  | ClickCopy _ =>
      is_Some (analysis st) ∧ status <$> activeAnalysis st = Some StatusOk
  | ClickHatTab hat =>
      isMobile st = false ∧ hat ∈ HATS ∧ is_Some (analysis st)
  | ClickActiveHatTab => isMobile st = true ∧ is_Some (analysis st)
  | ClickOtherHatTab hat =>
      isMobile st = true ∧ hatMenuOpen st = true
      ∧ hat ∈ List.filter (λ h, negb (bool_decide (key h = selectedHat st))) HATS
      ∧ is_Some (analysis st)
  | ClickClearNotes =>
      ∃ v, notesByHat st !! selectedHat st = Some v ∧ Js.truthy v = true
  | ClickModeText | ClickModePdf | ClickLongAnswer | ClickShortAnswer
  | MediaQueryUpdate _ | ChangeNotes _ => True
  end.

Inductive reachable : State → Prop :=
| reachable_initial : reachable initial_state
| reachable_step st ev :
    reachable st → enabled ev st → reachable (handle ev st).1.

(** All requests of a run of events from a state, oldest first. *)
Fixpoint run (evs : list Event) (st : State) : State * list Request :=
  match evs with
  | [] => (st, [])
  | ev :: evs' =>
      let '(st1, reqs1) := handle ev st in
      let '(st2, reqs2) := run evs' st1 in
      (st2, reqs1 ++ reqs2)
  end.

(** Does a request carry the notes object? *)
Definition value_is_notes (v : Value) : bool :=
  match v with VNotes _ => true | _ => false end.

Definition carries_notes (req : Request) : bool :=
  match body req with
  | JsonBody props => existsb (λ p, value_is_notes p.2) props
  | FormBody entries => existsb (λ p, value_is_notes p.2) entries
  end.

Definition is_generate_report (req : Request) : bool :=
  bool_decide (url req = Js.lit "/api/generate-pdf").

Definition hat_keys : list Js.str :=
  [Js.lit "blue"; Js.lit "white"; Js.lit "red";
   Js.lit "yellow"; Js.lit "black"; Js.lit "green"].

(** ** The document that buildStructuredText is meant to produce

    The text-mode contract of the input normalizer, in its own words: the
    fields in the fixed order, the empty ones left out, each under its
    heading.  A present field contributes its heading line followed by its
    trimmed text, and consecutive sections are set apart by one empty line. *)

Definition template_sections (r : Fields) : list (Js.str * option Js.str) :=
  [(H_topic, f_topic r); (H_decision, f_decision r);
   (H_stakeholders, f_stakeholders r); (H_constraints, f_constraints r);
   (H_context, f_context r)].

Definition section_block (hs : Js.str * option Js.str) : Js.str :=
  hs.1 ++ Js.newline ++ trimmed hs.2.

Definition structured_document (r : Fields) : Js.str :=
  Js.join (Js.newline ++ Js.newline)
    (List.map section_block
       (List.filter (λ hs, has_text hs.2) (template_sections r))).

(** ** The server side, from its specification *)

Module Backend.

Inductive AnswerLength := short | long.

Inductive BackendError := Timeout | RateLimited | Non2xx | MalformedOutput.

Definition all_roles : list HatRole := [blue; white; red; yellow; black; green].

Definition role_key (r : HatRole) : Js.str :=
  match r with
  | blue => Js.lit "blue"
  | white => Js.lit "white"
  | red => Js.lit "red"
  | yellow => Js.lit "yellow"
  | black => Js.lit "black"
  | green => Js.lit "green"
  end.

#[global] Instance HatRole_eq_dec : EqDecision HatRole.
Proof. solve_decision. Defined.

(** The role-specific instruction text for an answer length, the
    language-model capability [complete] and the wording of its failures
    are configuration of the deployment. *)
Record Config := {
  instruction : HatRole → AnswerLength → Js.str;
  complete : Js.str → BackendError + Js.str;
  describe : BackendError → Js.str;
  empty_response : Js.str
}.

Section Orchestrator.

Variable cfg : Config.

(** Modelled from the spec: the per-role prompt of the hat orchestrator
    (section 4.2), the role-specific instruction followed by the
    normalized document.  The backend is not part of the source tree. *)
Definition build_prompt (r : HatRole) (len : AnswerLength) (doc : Js.str) : Js.str :=
  instruction cfg r len ++ doc.

(** Modelled from the spec: one independent backend request for a role
    (section 4.2).  Any backend error, an empty response included, becomes
    a result with status error and a message; it never aborts. *)
Definition hat_result (len : AnswerLength) (doc : Js.str) (r : HatRole) : HatResult :=
  match complete cfg (build_prompt r len doc) with
  | inr text =>
      if Js.truthy text
      then {| role := r; status := StatusOk; content := text; message := [] |}
      else {| role := r; status := StatusError; content := [];
              message := empty_response cfg |}
  | inl e =>
      {| role := r; status := StatusError; content := [];
         message := describe cfg e |}
  end.

(** Modelled from the spec: the fan-out of the hat orchestrator
    (sections 4.2 and 5).  It dispatches one request for each of the six
    roles, from the document and the answer length alone. *)
Definition fan_out (len : AnswerLength) (doc : Js.str) : list HatResult :=
  hat_result len doc <$> all_roles.

(** Modelled from the spec: the fan-in of the hat orchestrator, which
    aggregates the results by role key, in whatever order they arrive
    (section 5). *)
Definition fan_in (results : list HatResult) : AnalysisResult :=
  foldl (λ m hr, <[role_key (role hr) := hr]> m) ∅ results.

(** Modelled from the spec: the hat orchestrator (section 4.2), from a
    normalized document and an answer length to an AnalysisResult. *)
Definition orchestrate (len : AnswerLength) (doc : Js.str) : AnalysisResult :=
  fan_in (fan_out len doc).

End Orchestrator.

Inductive ExportFailure := ExportError.

(** One role's part of the exported report. *)
Record ReportSection := {
  section_role : HatRole;
  section_body : Js.str;
  section_note : option Js.str
}.

(** Modelled from the spec: one role's section of the report (section 4.3),
    the content of the hat or its error message, and the note when present
    and not empty. *)
Definition report_section (notes : Notes) (hr : HatResult) : ReportSection :=
  {| section_role := role hr;
     section_body := match status hr with
                     | StatusOk => content hr
                     | StatusError => message hr
                     end;
     section_note := match notes !! role_key (role hr) with
                     | Some note => if Js.truthy note then Some note else None
                     | None => None
                     end |}.

(** Modelled from the spec: the report assembler (section 4.3).  It fails
    with ExportError when the AnalysisResult is absent (or lacks a role),
    and otherwise renders the roles in the fixed order.  The backend is not
    part of the source tree. *)
Definition assemble_report (a : option AnalysisResult) (notes : Notes)
    : ExportFailure + list ReportSection :=
  match a with
  | None => inl ExportError
  | Some a =>
      match mapM (λ r, a !! role_key r) all_roles with
      | Some results => inr (List.map (report_section notes) results)
      | None => inl ExportError
      end
  end.

End Backend.

(** ** States and runs used below *)

(** A backend that times out on the red hat and answers the others, five
    of its six requests finishing out of order. *)
Definition sample_backend : Backend.Config :=
  {| Backend.instruction r len :=
       Backend.role_key r
       ++ match len with
          | Backend.short => Js.lit " hat, briefly: "
          | Backend.long => Js.lit " hat, in detail and by section: "
          end;
     Backend.complete p :=
       if bool_decide (p = Js.lit "red hat, briefly: adopt 4-day work week")
       then inl Backend.Timeout
       else inr (Js.lit "Considered.");
     Backend.describe e := Js.lit "The model did not answer in time.";
     Backend.empty_response := Js.lit "The model returned no text." |}.

(** An order in which the six results may arrive. *)
Definition sample_completion : list HatRole :=
  [green; blue; red; white; black; yellow].

(** Every event of a run is enabled when its turn comes. *)
Fixpoint all_enabled (evs : list Event) (st : State) : Prop :=
  match evs with
  | [] => True
  | ev :: evs' => enabled ev st ∧ all_enabled evs' (handle ev st).1
  end.

(** The same state with another notes object. *)
Definition with_notes (n : Notes) (st : State) : State :=
  setNotesByHat (λ _, n) st.

(** The requests of a run that go to the submit-analysis endpoint. *)
Definition analyze_requests (reqs : list Request) : list Request :=
  List.filter (λ req, bool_decide (url req = Js.lit "/api/analyze")) reqs.

(** A whitespace-only topic with a decision filled in, in text mode. *)
Definition blank_topic_state : State :=
  setDecision (Js.lit "x") (setTopic (Js.lit "   ") initial_state).

(** A short session: a topic is typed, analysed, answered by the server,
    the green tab is chosen and a note is written. *)
Definition sample_analysis : AnalysisResult :=
  {[ Js.lit "blue" := {| role := blue; status := StatusOk;
                         content := Js.lit "Agenda"; message := [] |} ]}.

Definition sample_events : list Event :=
  [ChangeTopic (Js.lit "adopt 4-day work week");
   ClickAnalyze;
   AnalyzeSettled (Ok200 (Some sample_analysis) (Some (Js.lit "short")));
   ClickHatTab {| key := Js.lit "green"; label := Js.lit "Green";
                  description := Js.lit "New ideas & alternatives";
                  prompt := Js.lit "Generate options, improvements, lateral provocations, and quick experiments (no criticism)." |};
   ChangeNotes (Js.lit "pilot first")].

Definition sample_state : State := (run sample_events initial_state).1.

(** The sample session with a PDF picked instead of a typed topic. *)
Definition sample_file : File := {| name := Js.lit "brief.pdf"; bytes := [37; 80; 68; 70] |}.

Definition sample_pdf_state : State :=
  (run [ClickModePdf; ChangeFile (Some sample_file)] initial_state).1.

(** ** What a render shows *)

(** The object that the component hands to buildStructuredText. *)
Definition form_fields (st : State) : Fields :=
  {| f_topic := Some (topic st); f_decision := Some (decision st);
     f_stakeholders := Some (stakeholders st);
     f_constraints := Some (constraints st);
     f_context := Some (context st) |}.

(** One button of the hat selector, lines 457 to 516: its React key, its
    [aria-selected] attribute, its [disabled] attribute and its label. *)
Record TabButton := {
  tab_key : Js.str;
  aria_selected : bool;
  tab_disabled : bool;
  tab_label : option Js.str
}.

(** [!analysis] *)
Definition no_analysis (st : State) : bool :=
  match analysis st with Some _ => false | None => true end.

(** The buttons of the hat selector.  On a mobile screen the active hat
    comes first and the other hats follow only while the menu is open; on a
    wide screen there is one tab per entry of HATS. *)
Definition hat_tabs (st : State) : list TabButton :=
  if isMobile st then
    {| tab_key := selectedHat st; aria_selected := true;
       tab_disabled := no_analysis st;
       tab_label := label <$> activeHat st |}
    :: (if hatMenuOpen st then
          List.map (λ hat, {| tab_key := key hat; aria_selected := false;
                              tab_disabled := no_analysis st;
                              tab_label := Some (label hat) |})
            (List.filter (λ h, negb (bool_decide (key h = selectedHat st))) HATS)
        else [])
  else
    List.map (λ hat, {| tab_key := key hat;
                        aria_selected := bool_decide (selectedHat st = key hat);
                        tab_disabled := no_analysis st;
                        tab_label := Some (label hat) |}) HATS.

(** What the analysis card can hold, lines 542 to 558. *)
Inductive CardView :=
| EmptyCard
| ErrorCard (shown_message : Js.str)
| ContentCard (markdown : Js.str).

(** The children of the analysis card: three conditional blocks in a row. *)
Definition analysis_card (st : State) : list CardView :=
  (if no_analysis st then [EmptyCard] else [])
  ++ (if no_analysis st then []
      else match activeAnalysis st with
           | Some active =>
               match status active with
               | StatusError => [ErrorCard (message active)]
               | StatusOk => []
               end
           | None => []
           end)
  ++ (if no_analysis st then []
      else match activeAnalysis st with
           | Some active =>
               match status active with
               | StatusOk => [ContentCard (content active)]
               | StatusError => []
               end
           | None => []
           end).

(** The [value] of the notes text area: [notesByHat[selectedHat] || ''] *)
Definition notes_value (st : State) : Js.str :=
  Js.or_else (default [] (notesByHat st !! selectedHat st)) [].

(** ** Vocabulary of the further properties *)

(** Does any of the five fields hold text? *)
Definition any_field_has_text (r : Fields) : bool :=
  has_text (f_topic r) || has_text (f_decision r)
  || has_text (f_stakeholders r) || has_text (f_constraints r)
  || has_text (f_context r).

(** Is an optional string present and not empty? *)
Definition has_text_raw (x : option Js.str) : bool :=
  match x with
  | Some s => Js.truthy s
  | None => false
  end.

(** The same record with every field trimmed, a missing one made empty. *)
Definition trimmed_fields (r : Fields) : Fields :=
  {| f_topic := Some (trimmed (f_topic r));
     f_decision := Some (trimmed (f_decision r));
     f_stakeholders := Some (trimmed (f_stakeholders r));
     f_constraints := Some (trimmed (f_constraints r));
     f_context := Some (trimmed (f_context r)) |}.

(** The five template fields rewritten at once. *)
Definition with_fields (t d s c x : Js.str) (st : State) : State :=
  setContext x (setConstraints c (setStakeholders s (setDecision d (setTopic t st)))).

(** A POST to one of the two endpoints the component talks to. *)
Definition is_api_post (req : Request) : bool :=
  bool_decide (method req = Js.lit "POST")
  && (bool_decide (url req = Js.lit "/api/analyze")
      || bool_decide (url req = Js.lit "/api/generate-pdf")).

(** The two handlers that write the notes. *)
Definition writes_notes (ev : Event) : bool :=
  match ev with
  | ChangeNotes _ | ClickClearNotes => true
  | _ => false
  end.

(** The string stored under a property of a request body. *)
Definition body_string (prop : Js.str) (req : Request) : option Js.str :=
  let props := match body req with
               | JsonBody props => props
               | FormBody entries => entries
               end in
  match List.find (λ p, bool_decide (p.1 = prop)) props with
  | Some (_, VString s) => Some s
  | _ => None
  end.

(** Is the event the settlement of an analysis request? *)
Definition settles_analysis (ev : Event) : bool :=
  match ev with
  | AnalyzeSettled _ => true
  | _ => false
  end.

(** One if the flag is up. *)
Definition in_flight (flag : bool) : nat := if flag then 1%nat else 0%nat.

(** A topic typed in PDF mode with no file picked. *)
Definition sample_no_file_state : State :=
  (run [ChangeTopic (Js.lit "adopt 4-day work week"); ClickModePdf] initial_state).1.

(** An analysis in flight. *)
Definition sample_loading_state : State :=
  (run [ChangeTopic (Js.lit "adopt 4-day work week"); ClickAnalyze] initial_state).1.

(** The sample session continued on a phone, with the hat menu opened. *)
Definition sample_mobile_state : State :=
  (run [MediaQueryUpdate true; ClickActiveHatTab] sample_state).1.

(** ** Vocabulary of the proofs about trimming *)

(** A string whose first, respectively last, code unit is not white space. *)
Definition starts_clean (s : Js.str) : Prop :=
  ∃ c t, s = c :: t ∧ Js.is_ws c = false.

Definition ends_clean (s : Js.str) : Prop :=
  ∃ t c, s = t ++ [c] ∧ Js.is_ws c = false.

(** The lines pushed for one present field. *)
Definition pushed (hs : Js.str * option Js.str) : list Js.str :=
  [hs.1; trimmed hs.2; []].

(** A section that made it into the document. *)
Definition present (hs : Js.str * option Js.str) : Prop :=
  starts_clean hs.1 ∧ has_text hs.2 = true.

(** * Properties *)

(** ** Trimming *)

Section Trim.

Import Js.

Lemma trimStart_clean s : starts_clean s → trimStart s = s.
Proof. intros (c & t & -> & Hc). simpl. by rewrite Hc. Qed.

Lemma trimStart_head s : trimStart s = [] ∨ starts_clean (trimStart s).
Proof.
  induction s as [|c s IH]; simpl; [by left|].
  destruct (is_ws c) eqn:Hc; [done|]. right. by exists c, s.
Qed.

(** [trimStart] only removes a prefix. *)
Lemma trimStart_suffix s : ∃ w, s = w ++ trimStart s.
Proof.
  induction s as [|c s [w IH]]; simpl; [by exists []|].
  destruct (is_ws c).
  - exists (c :: w). simpl. by rewrite <- IH.
  - by exists [].
Qed.

Lemma trimEnd_prefix s : ∃ w, s = trimEnd s ++ w.
Proof.
  destruct (trimStart_suffix (rev s)) as [w Hw]. exists (rev w).
  unfold trimEnd. rewrite <- rev_app_distr, <- Hw. by rewrite rev_involutive.
Qed.

Lemma trimEnd_clean s : ends_clean s → trimEnd s = s.
Proof.
  intros (t & c & -> & Hc). unfold trimEnd.
  rewrite rev_app_distr. simpl. rewrite Hc. simpl.
  by rewrite rev_involutive.
Qed.

Lemma trimEnd_snoc_ws s c : is_ws c = true → trimEnd (s ++ [c]) = trimEnd s.
Proof.
  intros Hc. unfold trimEnd. rewrite rev_app_distr. simpl. by rewrite Hc.
Qed.

Lemma trimEnd_last s : trimEnd s = [] ∨ ends_clean (trimEnd s).
Proof.
  unfold trimEnd. destruct (trimStart_head (rev s)) as [->|(c & t & -> & Hc)].
  - by left.
  - right. exists (rev t), c. by simpl.
Qed.

Lemma trimEnd_keeps_head s :
  starts_clean s → trimEnd s = [] ∨ starts_clean (trimEnd s).
Proof.
  intros (c & t & Hs & Hc). destruct (trimEnd_prefix s) as [w Hw].
  destruct (trimEnd s) as [|c' t'] eqn:He; [by left|right].
  exists c', t'. split; [done|].
  rewrite Hs in Hw. simpl in Hw. by injection Hw as <- _.
Qed.

(** A trimmed string that is not empty is clean at both ends. *)
Lemma trim_clean s :
  truthy (trim s) = true → starts_clean (trim s) ∧ ends_clean (trim s).
Proof.
  unfold trim. intros Hne. split.
  - destruct (trimStart_head s) as [He|Hs].
    + rewrite He in Hne. discriminate Hne.
    + destruct (trimEnd_keeps_head _ Hs) as [He|]; [|done].
      rewrite He in Hne. discriminate Hne.
  - destruct (trimEnd_last (trimStart s)) as [He|]; [|done].
    rewrite He in Hne. discriminate Hne.
Qed.

Lemma trim_fixed s : starts_clean s → ends_clean s → trim s = s.
Proof.
  intros Hs He. unfold trim. rewrite (trimStart_clean _ Hs).
  by apply trimEnd_clean.
Qed.

(** What the final [trim] of buildStructuredText does: it drops the line
    break that the last, empty, pushed line leaves at the end. *)
Lemma trim_drops_final_newline s :
  starts_clean s → ends_clean s → trim (s ++ newline) = s.
Proof.
  intros Hs He. unfold trim.
  rewrite trimStart_clean.
  - unfold newline. rewrite trimEnd_snoc_ws by reflexivity.
    by apply trimEnd_clean.
  - destruct Hs as (c & t & -> & Hc). by exists c, (t ++ newline).
Qed.

Lemma starts_clean_app s t : starts_clean s → starts_clean (s ++ t).
Proof. intros (c & u & -> & Hc). by exists c, (u ++ t). Qed.

Lemma ends_clean_app s t : ends_clean t → ends_clean (s ++ t).
Proof.
  intros (u & c & -> & Hc). exists (s ++ u), c. by rewrite app_assoc.
Qed.

End Trim.

(** ** buildStructuredText *)

Section StructuredText.

Import Js.

Lemma push_section_filter h x lines :
  push_section h x lines
  = lines ++ flat_map pushed (List.filter (λ hs, has_text hs.2) [(h, x)]).
Proof.
  unfold push_section. simpl. destruct (has_text x); simpl.
  - done.
  - by rewrite app_nil_r.
Qed.

(** The array [lines] just before the [join]. *)
Lemma lines_of_sections r :
  push_section H_context (f_context r)
    (push_section H_constraints (f_constraints r)
       (push_section H_stakeholders (f_stakeholders r)
          (push_section H_decision (f_decision r)
             (push_section H_topic (f_topic r) []))))
  = flat_map pushed (List.filter (λ hs, has_text hs.2) (template_sections r)).
Proof.
  unfold template_sections, push_section. simpl.
  destruct (has_text (f_topic r)), (has_text (f_decision r)),
    (has_text (f_stakeholders r)), (has_text (f_constraints r)),
    (has_text (f_context r)); reflexivity.
Qed.

Lemma block_clean hs :
  present hs → starts_clean (section_block hs) ∧ ends_clean (section_block hs).
Proof.
  intros [Hh Ht]. unfold section_block. split.
  - by apply starts_clean_app.
  - rewrite app_assoc. apply ends_clean_app.
    destruct hs as [h [s|]]; simpl in *; [|discriminate Ht].
    by apply trim_clean.
Qed.

Lemma join_blocks_clean ps :
  ps ≠ [] → Forall present ps →
  starts_clean (join (newline ++ newline) (List.map section_block ps))
  ∧ ends_clean (join (newline ++ newline) (List.map section_block ps)).
Proof.
  induction ps as [|p ps IH]; [done|]. intros _ Hall.
  apply Forall_cons in Hall as [Hp Hps].
  destruct (block_clean p Hp) as [Hs He].
  destruct ps as [|q ps]; [by simpl|].
  change (join (newline ++ newline) (List.map section_block (p :: q :: ps)))
    with (section_block p ++ (newline ++ newline)
            ++ join (newline ++ newline) (List.map section_block (q :: ps))).
  split.
  - by apply starts_clean_app.
  - rewrite app_assoc. apply ends_clean_app. by apply IH.
Qed.

(** Joining the pushed lines with a line break gives the sections set apart
    by an empty line, and one line break too many at the end. *)
Lemma join_pushed ps :
  ps ≠ [] →
  join newline (flat_map pushed ps)
  = join (newline ++ newline) (List.map section_block ps) ++ newline.
Proof.
  induction ps as [|p ps IH]; [done|]. intros _.
  destruct ps as [|q ps].
  - simpl. unfold section_block. by rewrite <- !app_assoc.
  - change (join newline (flat_map pushed (p :: q :: ps)))
      with (p.1 ++ newline ++ trimmed p.2 ++ newline ++ [] ++ newline
              ++ join newline (flat_map pushed (q :: ps))).
    rewrite IH by done.
    change (join (newline ++ newline) (List.map section_block (p :: q :: ps)))
      with (section_block p ++ (newline ++ newline)
              ++ join (newline ++ newline) (List.map section_block (q :: ps))).
    unfold section_block. simpl. by rewrite <- !app_assoc.
Qed.

Lemma headings_clean r :
  Forall (λ hs, starts_clean hs.1) (template_sections r).
Proof.
  unfold template_sections.
  repeat (apply Forall_cons; split; [by eexists _, _|]). apply Forall_nil_2.
Qed.

Lemma kept_sections_present r :
  Forall present (List.filter (λ hs, has_text hs.2) (template_sections r)).
Proof.
  apply List.Forall_forall. intros hs Hin.
  apply List.filter_In in Hin as [Hin Ht]. split; [|done].
  pose proof (headings_clean r) as Hh.
  rewrite List.Forall_forall in Hh. by apply Hh.
Qed.

End StructuredText.

(** C2.  For every record of the five fields, buildStructuredText returns
    the fields that are not empty after trimming, in the order topic,
    decision, stakeholders, constraints, context, each (trimmed) under its
    fixed heading line, with one empty line between consecutive sections;
    an empty or whitespace-only (or missing) field is left out together
    with its heading. *)
Theorem buildStructuredText_spec (r : Fields) :
  buildStructuredText r = structured_document r.
Proof.
  unfold buildStructuredText, structured_document.
  cbv zeta. rewrite lines_of_sections.
  pose proof (kept_sections_present r) as Hall.
  destruct (List.filter (λ hs, has_text hs.2) (template_sections r))
    as [|p ps] eqn:Hkept.
  - reflexivity.
  - rewrite join_pushed by done.
    destruct (join_blocks_clean (p :: ps)) as [Hs He]; [done|done|].
    by apply trim_drops_final_newline.
Qed.

(** ** The handlers, field by field *)

Ltac handlers :=
  unfold handle, handleAnalyze, handleAnalyze_settled, handleDownload,
    handleDownload_settled, handleCopy, media_update, use_example,
    setNotesForHat;
  repeat case_match; simpl.

Lemma HATS_keys : List.map key HATS = hat_keys.
Proof. reflexivity. Qed.

Lemma key_of_hat hat : hat ∈ HATS → key hat ∈ hat_keys.
Proof.
  intros Hin. rewrite <- HATS_keys. apply list_elem_of_In, List.in_map.
  by apply list_elem_of_In.
Qed.

Lemma find_hat_key k :
  k ∈ hat_keys →
  ∃ hat, List.find (λ h, bool_decide (key h = k)) HATS = Some hat ∧ key hat = k.
Proof.
  unfold hat_keys. rewrite !elem_of_cons, elem_of_nil.
  intros [->|[->|[->|[->|[->|[->|[]]]]]]]; eexists; split; reflexivity.
Qed.

(** Every handler either leaves the selected hat alone, resets it to blue
    ([handleAnalyze]) or stores the key of one of the rendered tabs. *)
Lemma selectedHat_step ev st :
  enabled ev st →
  selectedHat (handle ev st).1 = selectedHat st
  ∨ selectedHat (handle ev st).1 = Js.lit "blue"
  ∨ ∃ hat, hat ∈ HATS ∧ selectedHat (handle ev st).1 = key hat.
Proof.
  destruct ev; intros Hen;
    try (left; handlers; reflexivity).
  - destruct o; [by left|by left|by left|right; left].
    simpl. unfold handleAnalyze_settled. by repeat case_match.
  - right; right. exists hat. by destruct Hen as (_ & Hin & _).
  - right; right. exists hat. destruct Hen as (_ & _ & Hin & _).
    split; [|done].
    apply list_elem_of_In, List.filter_In in Hin as [Hin _].
    by apply list_elem_of_In.
Qed.

Lemma selectedHat_reachable st : reachable st → selectedHat st ∈ hat_keys.
Proof.
  induction 1 as [|st ev Hst IH Hen].
  - vm_compute. apply list_elem_of_here.
  - destruct (selectedHat_step ev st Hen) as [->|[->|(hat & Hin & ->)]].
    + done.
    + apply list_elem_of_here.
    + by apply key_of_hat.
Qed.

(** The mode cell only ever holds one of the two tab names. *)
Lemma mode_reachable st :
  reachable st → mode st = Js.lit "text" ∨ mode st = Js.lit "pdf".
Proof.
  induction 1 as [|st ev Hst IH Hen]; [by left|].
  destruct ev; try (by left); try (by right);
    try (handlers; exact IH).
Qed.

Lemma notesByHat_initial :
  dom (notesByHat initial_state) =@{gset (list N)} list_to_set hat_keys.
Proof.
  unfold initial_state, fromEntries, hat_keys. simpl.
  rewrite !dom_insert_L, dom_empty_L. set_solver.
Qed.

(** Only the two notes handlers write the notes cell. *)
Lemma notesByHat_step ev st :
  notesByHat (handle ev st).1 = notesByHat st
  ∨ ∃ v, notesByHat (handle ev st).1 = <[selectedHat st := v]> (notesByHat st).
Proof.
  destruct ev; try (left; handlers; reflexivity); right; by eexists.
Qed.

Lemma dom_overwrite (k v : list N) (n : Notes) :
  k ∈ dom n → dom (<[k := v]> n) = dom n.
Proof.
  intros Hk. rewrite dom_insert_L. apply subseteq_union_1_L.
  by apply singleton_subseteq_l.
Qed.

Lemma notes_domain_reachable st :
  reachable st → dom (notesByHat st) =@{gset (list N)} list_to_set hat_keys.
Proof.
  induction 1 as [|st ev Hst IH Hen]; [apply notesByHat_initial|].
  destruct (notesByHat_step ev st) as [->|[v ->]]; [done|].
  rewrite dom_overwrite; [done|]. rewrite IH.
  apply elem_of_list_to_set. by apply selectedHat_reachable.
Qed.

Lemma run_cons_state ev evs st :
  (run (ev :: evs) st).1 = (run evs (handle ev st).1).1.
Proof.
  cbn [run]. destruct (handle ev st) as [st1 reqs1]. cbn [fst snd].
  by destruct (run evs st1) as [st2 reqs2].
Qed.

Lemma run_cons_requests ev evs st :
  (run (ev :: evs) st).2 = (handle ev st).2 ++ (run evs (handle ev st).1).2.
Proof.
  cbn [run]. destruct (handle ev st) as [st1 reqs1]. cbn [fst snd].
  by destruct (run evs st1) as [st2 reqs2].
Qed.

(** Any run of enabled events from a reachable state stays reachable. *)
Lemma run_reachable evs st :
  reachable st → all_enabled evs st → reachable (run evs st).1.
Proof.
  revert st. induction evs as [|ev evs IH]; intros st Hst Hen; [done|].
  destruct Hen as [Hev Hevs]. rewrite run_cons_state.
  apply IH; [by apply reachable_step|done].
Qed.

Lemma sample_state_reachable : reachable sample_state.
Proof.
  apply run_reachable; [constructor|].
  unfold sample_events. cbn [all_enabled].
  split; [reflexivity|]. split; [reflexivity|]. split; [reflexivity|].
  split; [|by split].
  split; [reflexivity|]. split.
  - unfold HATS. do 5 apply list_elem_of_further. apply list_elem_of_here.
  - by eexists.
Qed.

Lemma sample_pdf_state_reachable : reachable sample_pdf_state.
Proof.
  apply run_reachable; [constructor|].
  cbn [all_enabled]. split; [exact I|]. split; [|exact I].
  simpl. discriminate.
Qed.

(** ** The hats table and the selected hat *)

(** C4.  The hat enumeration is the six values blue, white, red, yellow,
    black, green in that display order, without repetition, it is the key
    set of the role type, and every entry of the constant table carries a
    label, a description and a facilitator prompt (none of them empty). *)
Theorem HATS_enumeration :
  List.map key HATS
  = [Js.lit "blue"; Js.lit "white"; Js.lit "red";
     Js.lit "yellow"; Js.lit "black"; Js.lit "green"]
  ∧ List.map key HATS = List.map Backend.role_key Backend.all_roles
  ∧ (∀ r : HatRole, r ∈ Backend.all_roles)
  ∧ NoDup (List.map key HATS)
  ∧ length HATS = 6%nat
  ∧ Forall (λ h, Js.truthy (label h) = true ∧ Js.truthy (description h) = true
                 ∧ Js.truthy (prompt h) = true) HATS.
Proof.
  split; [reflexivity|]. split; [reflexivity|]. split.
  { intros []; apply list_elem_of_In; simpl; tauto. }
  split.
  { apply (bool_decide_unpack _). by vm_compute. }
  split; [reflexivity|].
  unfold HATS. repeat (apply Forall_cons; split; [by repeat split|]).
  apply Forall_nil_2.
Qed.

(** C9.  The selected hat is always one of the six hat keys: it starts as
    blue, every handler leaves it, resets it to blue or stores the key of a
    member of HATS, and so the lookup of the active hat always finds it. *)
Theorem selectedHat_always_a_hat (st : State) :
  reachable st →
  selectedHat initial_state = Js.lit "blue"
  ∧ (∀ ev, enabled ev st →
       selectedHat (handle ev st).1 = selectedHat st
       ∨ selectedHat (handle ev st).1 = Js.lit "blue"
       ∨ ∃ hat, hat ∈ HATS ∧ selectedHat (handle ev st).1 = key hat)
  ∧ selectedHat st ∈ hat_keys
  ∧ ∃ hat, activeHat st = Some hat ∧ key hat = selectedHat st.
Proof.
  intros Hst. split; [reflexivity|]. split.
  { intros ev. apply selectedHat_step. }
  pose proof (selectedHat_reachable st Hst) as Hsel. split; [done|].
  by apply find_hat_key.
Qed.

Lemma selectedHat_always_a_hat_witness :
  reachable sample_state
  ∧ selectedHat sample_state = Js.lit "green"
  ∧ ∃ hat, activeHat sample_state = Some hat ∧ key hat = selectedHat sample_state.
Proof.
  split; [exact sample_state_reachable|]. split; [reflexivity|].
  exact (proj2 (proj2 (proj2
           (selectedHat_always_a_hat sample_state sample_state_reachable)))).
Defined.

(** C10.  The notes object always has exactly the six hat keys: it is
    created with them, and every handler, setNotesForHat on the selected hat
    with any text or with the empty string included, keeps the key set. *)
Theorem notesByHat_domain_invariant (st : State) :
  reachable st →
  dom (notesByHat initial_state) =@{gset (list N)} list_to_set hat_keys
  ∧ dom (notesByHat st) =@{gset (list N)} list_to_set hat_keys
  ∧ (∀ v, dom (notesByHat (setNotesForHat (selectedHat st) v st))
          = dom (notesByHat st))
  ∧ (∀ ev, enabled ev st → dom (notesByHat (handle ev st).1) = dom (notesByHat st)).
Proof.
  intros Hst. split; [apply notesByHat_initial|].
  pose proof (notes_domain_reachable st Hst) as Hdom. split; [done|].
  assert (Hsel : selectedHat st ∈ dom (notesByHat st)).
  { rewrite Hdom. apply elem_of_list_to_set. by apply selectedHat_reachable. }
  split.
  - intros v. simpl. by apply dom_overwrite.
  - intros ev _. destruct (notesByHat_step ev st) as [->|[v ->]]; [done|].
    by apply dom_overwrite.
Qed.

Lemma notesByHat_domain_invariant_witness :
  reachable sample_state
  ∧ notesByHat sample_state !! Js.lit "green" = Some (Js.lit "pilot first")
  ∧ dom (notesByHat sample_state) =@{gset (list N)} list_to_set hat_keys
  ∧ dom (notesByHat (setNotesForHat (selectedHat sample_state) [] sample_state))
    = dom (notesByHat sample_state).
Proof.
  pose proof (notesByHat_domain_invariant sample_state sample_state_reachable)
    as (_ & Hdom & Hset & _).
  split; [exact sample_state_reachable|]. split; [by vm_compute|].
  split; [exact Hdom|exact (Hset [])].
Defined.

(** ** Requests *)

(** C5.  Every submit-analysis request has one of two shapes, fixed by the
    input mode: in text mode a JSON body with exactly the properties text
    (the structured document) and answer_length; in PDF mode a multipart
    form with exactly the entries file (the picked PDF) and answer_length. *)
Theorem submit_analysis_request_shape (st : State) (ev : Event) (req : Request) :
  reachable st →
  req ∈ (handle ev st).2 →
  url req = Js.lit "/api/analyze" →
  (mode st = Js.lit "text"
   ∧ req = {| url := Js.lit "/api/analyze"; method := Js.lit "POST";
              headers := [(Js.lit "Content-Type", Js.lit "application/json")];
              body := JsonBody
                        [(Js.lit "text", VString (structuredText st));
                         (Js.lit "answer_length", VString (answerLength st))] |})
  ∨ (mode st = Js.lit "pdf"
     ∧ ∃ file, fileValue st = Some file
       ∧ req = {| url := Js.lit "/api/analyze"; method := Js.lit "POST";
                  headers := [];
                  body := FormBody
                            [(Js.lit "file", VFile file);
                             (Js.lit "answer_length", VString (answerLength st))] |}).
Proof.
  intros Hst Hin Hurl.
  destruct ev; simpl in Hin; try (by apply elem_of_nil in Hin).
  - (* handleAnalyze *)
    unfold handleAnalyze in Hin.
    destruct (isReadyToAnalyze st) eqn:Hready; simpl in Hin;
      [|by apply elem_of_nil in Hin].
    apply list_elem_of_singleton in Hin as ->.
    unfold analyze_request, isReadyToAnalyze in *.
    destruct (mode_reachable st Hst) as [Hmode|Hmode]; rewrite Hmode in *.
    + left. split; [done|]. reflexivity.
    + right. split; [done|].
      rewrite bool_decide_eq_false_2 in Hready by discriminate.
      rewrite bool_decide_eq_true_2 by done.
      destruct (fileValue st) as [file|]; [|discriminate Hready].
      by exists file.
  - (* handleDownload *)
    unfold handleDownload in Hin.
    destruct (analysis st); simpl in Hin; [|by apply elem_of_nil in Hin].
    apply list_elem_of_singleton in Hin as ->. discriminate Hurl.
Qed.

Lemma submit_analysis_request_shape_witness :
  reachable sample_pdf_state
  ∧ mode sample_pdf_state = Js.lit "pdf"
  ∧ (handle ClickAnalyze sample_pdf_state).2
    = [{| url := Js.lit "/api/analyze"; method := Js.lit "POST"; headers := [];
          body := FormBody [(Js.lit "file", VFile sample_file);
                            (Js.lit "answer_length", VString (Js.lit "long"))] |}].
Proof.
  split; [exact sample_pdf_state_reachable|]. split; [reflexivity|].
  destruct (submit_analysis_request_shape sample_pdf_state ClickAnalyze
              (analyze_request sample_pdf_state) sample_pdf_state_reachable)
    as [[Hmode _]|(_ & file & Hfile & Hreq)].
  - vm_compute. apply list_elem_of_here.
  - reflexivity.
  - discriminate Hmode.
  - reflexivity.
Defined.

(** C6.  Every generate-report request carries a JSON body with exactly the
    properties analysis, answer_length and notes: the AnalysisResult held at
    that moment, the answer length, and the notes object. *)
Theorem generate_report_request_shape (st : State) (ev : Event) (req : Request) :
  req ∈ (handle ev st).2 →
  url req = Js.lit "/api/generate-pdf" →
  ∃ a, analysis st = Some a
    ∧ req = {| url := Js.lit "/api/generate-pdf"; method := Js.lit "POST";
               headers := [(Js.lit "Content-Type", Js.lit "application/json")];
               body := JsonBody
                         [(Js.lit "analysis", VAnalysis a);
                          (Js.lit "answer_length", VString (answerLength st));
                          (Js.lit "notes", VNotes (notesByHat st))] |}.
Proof.
  intros Hin Hurl.
  destruct ev; simpl in Hin; try (by apply elem_of_nil in Hin).
  - unfold handleAnalyze in Hin.
    destruct (isReadyToAnalyze st); simpl in Hin; [|by apply elem_of_nil in Hin].
    apply list_elem_of_singleton in Hin as ->.
    unfold analyze_request in Hurl. by repeat case_match.
  - unfold handleDownload in Hin.
    destruct (analysis st) as [a|]; simpl in Hin; [|by apply elem_of_nil in Hin].
    apply list_elem_of_singleton in Hin as ->. by exists a.
Qed.

Lemma generate_report_request_shape_witness :
  ∃ a, analysis sample_state = Some a
    ∧ hd (analyze_request sample_state) (handle ClickDownload sample_state).2
      = {| url := Js.lit "/api/generate-pdf"; method := Js.lit "POST";
           headers := [(Js.lit "Content-Type", Js.lit "application/json")];
           body := JsonBody
                     [(Js.lit "analysis", VAnalysis a);
                      (Js.lit "answer_length", VString (answerLength sample_state));
                      (Js.lit "notes", VNotes (notesByHat sample_state))] |}.
Proof.
  apply (generate_report_request_shape sample_state ClickDownload).
  - vm_compute. apply list_elem_of_here.
  - reflexivity.
Defined.

(** C7.  Without an AnalysisResult a report export fails and sends nothing:
    handleDownload returns at once, with no fetch and the state untouched,
    and the report assembler answers ExportError for an absent analysis. *)
Theorem handleDownload_without_analysis (st : State) (notes : Notes) :
  analysis st = None →
  handleDownload st = (st, [])
  ∧ (handle ClickDownload st).2 = []
  ∧ Backend.assemble_report (analysis st) notes = inl Backend.ExportError.
Proof.
  intros Hnone. unfold handle, handleDownload. by rewrite Hnone.
Qed.

Lemma handleDownload_without_analysis_witness :
  analysis initial_state = None
  ∧ handleDownload initial_state = (initial_state, [])
  ∧ Backend.assemble_report (analysis initial_state) (notesByHat initial_state)
    = inl Backend.ExportError.
Proof.
  split; [reflexivity|].
  destruct (handleDownload_without_analysis initial_state
              (notesByHat initial_state) eq_refl) as (Hdl & _ & Hexp).
  split; [exact Hdl|exact Hexp].
Defined.

(** ** The notes never reach the analysis endpoint *)

(** A handler run on a state with other notes ends in the state it would
    have reached anyway, up to the notes. *)
Lemma handle_with_notes ev st n :
  ∃ n', (handle ev (with_notes n st)).1 = with_notes n' (handle ev st).1.
Proof.
  destruct ev; try (by eexists).
  - simpl. unfold handleAnalyze.
    change (isReadyToAnalyze (with_notes n st)) with (isReadyToAnalyze st).
    destruct (isReadyToAnalyze st); by eexists.
  - simpl. destruct o as [m|d|dt|a [len|]]; try (by eexists).
    destruct (Js.truthy len) eqn:Hlen; unfold handleAnalyze_settled;
      rewrite Hlen; by eexists.
  - simpl. unfold handleDownload.
    change (analysis (with_notes n st)) with (analysis st).
    destruct (analysis st); by eexists.
  - simpl. destruct o; by eexists.
  - simpl. unfold handleCopy.
    change (activeAnalysis (with_notes n st)) with (activeAnalysis st).
    destruct (activeAnalysis st) as [[? [] ? ?]|]; simpl;
      try destruct clipboard_ok; by eexists.
  - simpl. change (analysis (with_notes n st)) with (analysis st).
    destruct (analysis st); by eexists.
  - simpl. destruct mobile; by eexists.
Qed.

Lemma handle_analyze_requests_with_notes ev st n :
  analyze_requests (handle ev (with_notes n st)).2
  = analyze_requests (handle ev st).2.
Proof.
  destruct ev; try reflexivity; simpl.
  - unfold handleAnalyze.
    change (isReadyToAnalyze (with_notes n st)) with (isReadyToAnalyze st).
    destruct (isReadyToAnalyze st); reflexivity.
  - unfold handleDownload.
    change (analysis (with_notes n st)) with (analysis st).
    destruct (analysis st); reflexivity.
Qed.

Lemma run_analyze_requests_with_notes evs st n :
  analyze_requests (run evs (with_notes n st)).2
  = analyze_requests (run evs st).2.
Proof.
  revert st n. induction evs as [|ev evs IH]; intros st n; [done|].
  rewrite !run_cons_requests. unfold analyze_requests in *.
  rewrite !List.filter_app. f_equal.
  - apply handle_analyze_requests_with_notes.
  - destruct (handle_with_notes ev st n) as [n' ->]. apply IH.
Qed.

Lemma handle_notes_only_in_report ev st :
  forallb (λ req, implb (carries_notes req) (is_generate_report req))
    (handle ev st).2 = true.
Proof.
  destruct ev; try reflexivity; simpl.
  - unfold handleAnalyze, analyze_request. by repeat case_match.
  - unfold handleDownload. by destruct (analysis st).
Qed.

(** C8.  The notes never influence and are never part of a
    submit-analysis request: handleAnalyze issues the same request whatever
    the notes are, the analysis requests of any run of events are the same
    for any two notes objects the run starts from, a request that carries
    the notes always goes to the generate-report endpoint, and the
    generate-report request does carry them. *)
Theorem notes_never_reach_analyze
    (st : State) (n1 n2 : Notes) (evs : list Event) :
  (handleAnalyze (with_notes n1 st)).2 = (handleAnalyze (with_notes n2 st)).2
  ∧ forallb (λ req, negb (carries_notes req)) (handleAnalyze st).2 = true
  ∧ analyze_requests (run evs (with_notes n1 st)).2
    = analyze_requests (run evs (with_notes n2 st)).2
  ∧ forallb (λ req, implb (carries_notes req) (is_generate_report req))
      (run evs st).2 = true
  ∧ forallb carries_notes (handleDownload st).2 = true.
Proof.
  split.
  { unfold handleAnalyze.
    change (isReadyToAnalyze (with_notes n1 st)) with (isReadyToAnalyze st).
    change (isReadyToAnalyze (with_notes n2 st)) with (isReadyToAnalyze st).
    destruct (isReadyToAnalyze st); reflexivity. }
  split.
  { unfold handleAnalyze, analyze_request. by repeat case_match. }
  split.
  { by rewrite !run_analyze_requests_with_notes. }
  split.
  { revert st. induction evs as [|ev evs IH]; intros st; [done|].
    rewrite run_cons_requests, forallb_app, handle_notes_only_in_report.
    apply IH. }
  unfold handleDownload. by destruct (analysis st).
Qed.

(** ** The readiness guard of handleAnalyze *)

(** With all five fields blank the guard refuses: the message is shown and
    nothing is sent. *)
Lemma handleAnalyze_rejects_blank_document st :
  mode st = Js.lit "text" →
  has_text (Some (topic st)) = false →
  has_text (Some (decision st)) = false →
  has_text (Some (stakeholders st)) = false →
  has_text (Some (constraints st)) = false →
  has_text (Some (context st)) = false →
  (handleAnalyze st).2 = []
  ∧ error (handleAnalyze st).1
    = Js.lit "Please enter a topic/problem statement or upload a PDF to continue.".
Proof.
  intros Hmode Ht Hd Hs Hc Hx.
  assert (Hready : isReadyToAnalyze st = false).
  { unfold isReadyToAnalyze, structuredText, buildStructuredText, push_section.
    cbn [f_topic f_decision f_stakeholders f_constraints f_context].
    by rewrite Hmode, Ht, Hd, Hs, Hc, Hx. }
  unfold handleAnalyze. by rewrite Hready.
Qed.

(** C1 fails on the code.  The guard looks at the whole structured
    document, not at the topic: with a whitespace-only topic and a decision
    filled in, text mode, handleAnalyze shows no validation message and
    sends the submit-analysis request. *)
Theorem blank_topic_submission_is_sent :
  mode blank_topic_state = Js.lit "text"
  ∧ Js.trim (topic blank_topic_state) = []
  ∧ isReadyToAnalyze blank_topic_state = true
  ∧ error (handleAnalyze blank_topic_state).1 = []
  ∧ (handleAnalyze blank_topic_state).2
    = [{| url := Js.lit "/api/analyze"; method := Js.lit "POST";
          headers := [(Js.lit "Content-Type", Js.lit "application/json")];
          body := JsonBody
                    [(Js.lit "text",
                      VString (Js.lit "# Decision to make (Blue Hat)"
                               ++ Js.newline ++ Js.lit "x"));
                     (Js.lit "answer_length", VString (Js.lit "long"))] |}].
Proof. repeat split; reflexivity. Qed.

(** ** The hat orchestrator *)

Section OrchestratorFacts.

Import Backend.

Variable cfg : Config.

Lemma role_key_inj r1 r2 : role_key r1 = role_key r2 → r1 = r2.
Proof. destruct r1, r2; intros Heq; (reflexivity || discriminate Heq). Qed.

Lemma all_roles_NoDup : NoDup all_roles.
Proof. apply (bool_decide_unpack _). by vm_compute. Qed.

(** Success or failure of the backend call, the result is filed under the
    role it was requested for. *)
Lemma role_hat_result (len : AnswerLength) (doc : Js.str) (r : HatRole) : role (hat_result cfg len doc r) = r.
Proof.
  unfold Backend.hat_result. destruct (complete cfg _) as [e|text]; [done|].
  by destruct (Js.truthy text).
Qed.

Lemma roles_of_results (len : AnswerLength) (doc : Js.str) (rs : list HatRole) :
  role <$> (hat_result cfg len doc <$> rs) = rs.
Proof.
  induction rs as [|r rs IH]; [done|].
  cbn [fmap list_fmap]. cbn [fmap list_fmap] in IH.
  by rewrite IH, role_hat_result.
Qed.

(** A key that no pending result is filed under keeps its entry. *)
Lemma fan_in_from_lookup_other (results : list HatResult) (m : AnalysisResult)
    (k : Js.str) :
  k ∉ role_key <$> (role <$> results) →
  foldl (λ m hr, <[role_key (role hr) := hr]> m) m results !! k = m !! k.
Proof.
  revert m. induction results as [|hr results IH]; intros m Hk; [done|].
  cbn [fmap list_fmap] in Hk. apply not_elem_of_cons in Hk as [Hne Hk].
  cbn [foldl]. rewrite IH by done. by rewrite lookup_insert_ne.
Qed.

(** Among results for distinct roles, each one is found under its role key,
    wherever it stands in the list. *)
Lemma fan_in_from_lookup_elem (results : list HatResult) (m : AnalysisResult)
    (hr : HatResult) :
  NoDup (role <$> results) → hr ∈ results →
  foldl (λ m hr, <[role_key (role hr) := hr]> m) m results
    !! role_key (role hr) = Some hr.
Proof.
  revert m. induction results as [|a results IH]; intros m Hnd Hin.
  - by apply elem_of_nil in Hin.
  - cbn [fmap list_fmap] in Hnd. apply NoDup_cons in Hnd as [Ha Hnd].
    cbn [foldl]. apply elem_of_cons in Hin as [->|Hin].
    + rewrite fan_in_from_lookup_other; [by rewrite lookup_insert_eq|].
      intros (r & Heq & Hr)%list_elem_of_fmap.
      apply role_key_inj in Heq. by subst r.
    + by apply IH.
Qed.

Lemma fan_in_from_dom (results : list HatResult) (m : AnalysisResult) :
  dom (foldl (λ m hr, <[role_key (role hr) := hr]> m) m results)
  =@{gset (list N)} dom m ∪ list_to_set (role_key <$> (role <$> results)).
Proof.
  revert m. induction results as [|hr results IH]; intros m.
  - cbn [foldl fmap list_fmap]. rewrite list_to_set_nil.
    symmetry. apply (right_id_L ∅ (∪)).
  - cbn [foldl fmap list_fmap]. rewrite IH, dom_insert_L, list_to_set_cons.
    rewrite (comm_L (∪) {[role_key (role hr)]} (dom m)).
    by rewrite (assoc_L (∪)).
Qed.

(** The aggregate does not depend on the order in which results for distinct
    roles arrive. *)
Lemma fan_in_order (results arrived : list HatResult) :
  NoDup (role <$> results) → arrived ≡ₚ results →
  fan_in arrived = fan_in results.
Proof.
  intros Hnd Hperm.
  assert (Hnd' : NoDup (role <$> arrived)) by by rewrite Hperm.
  apply map_eq. intros k. unfold fan_in.
  destruct (decide (k ∈ role_key <$> (role <$> results))) as [Hk|Hk].
  - apply list_elem_of_fmap in Hk as (r & -> & Hr).
    apply list_elem_of_fmap in Hr as (hr & -> & Hhr).
    rewrite (fan_in_from_lookup_elem results) by done.
    apply fan_in_from_lookup_elem; [done|by rewrite Hperm].
  - rewrite (fan_in_from_lookup_other results) by done.
    apply fan_in_from_lookup_other. by rewrite Hperm.
Qed.

(** C3.  Whatever the six backend calls answer, the orchestrator produces
    exactly one HatResult for each of the six roles: the results it collects
    name the six roles, every one and none twice, the AnalysisResult holds
    under each role's key the result of that role's own call, its keys are
    exactly the six hat keys, and it is the same in whatever order the six
    results arrive. *)
Theorem orchestrate_one_result_per_role (len : AnswerLength) (doc : Js.str) :
  role <$> fan_out cfg len doc = all_roles
  ∧ NoDup (role <$> fan_out cfg len doc)
  ∧ (∀ r, r ∈ role <$> fan_out cfg len doc)
  ∧ length (fan_out cfg len doc) = 6%nat
  ∧ (∀ r, orchestrate cfg len doc !! role_key r = Some (hat_result cfg len doc r)
          ∧ role (hat_result cfg len doc r) = r)
  ∧ dom (orchestrate cfg len doc) =@{gset (list N)} list_to_set hat_keys
  ∧ size (orchestrate cfg len doc) = 6%nat
  ∧ (∀ arrived, arrived ≡ₚ fan_out cfg len doc →
       fan_in arrived = orchestrate cfg len doc).
Proof.
  assert (Hroles : role <$> fan_out cfg len doc = all_roles)
    by apply roles_of_results.
  assert (Hnd : NoDup (role <$> fan_out cfg len doc))
    by (rewrite Hroles; apply all_roles_NoDup).
  assert (Hall : ∀ r, r ∈ all_roles).
  { intros r. destruct r; apply list_elem_of_In; simpl; tauto. }
  assert (Hdom : dom (orchestrate cfg len doc)
                 =@{gset (list N)} list_to_set hat_keys).
  { unfold orchestrate, fan_in. rewrite fan_in_from_dom, Hroles.
    by rewrite dom_empty_L, (left_id_L ∅ (∪)). }
  split; [done|]. split; [done|]. split; [by rewrite Hroles|].
  split; [reflexivity|]. split.
  { intros r. split; [|apply role_hat_result].
    unfold orchestrate, fan_in.
    rewrite <- (role_hat_result len doc r) at 1.
    apply fan_in_from_lookup_elem; [done|].
    unfold Backend.fan_out. apply list_elem_of_fmap_2. apply Hall. }
  split; [done|]. split.
  { rewrite <- size_dom, Hdom. rewrite size_list_to_set; [done|].
    apply (bool_decide_unpack _). by vm_compute. }
  intros arrived Hperm. by apply fan_in_order.
Qed.

End OrchestratorFacts.

Lemma orchestrate_one_result_per_role_witness :
  Backend.fan_in
    (Backend.hat_result sample_backend Backend.short
       (Js.lit "adopt 4-day work week") <$> sample_completion)
  = Backend.orchestrate sample_backend Backend.short
      (Js.lit "adopt 4-day work week")
  ∧ status <$> (Backend.orchestrate sample_backend Backend.short
                  (Js.lit "adopt 4-day work week") !! Js.lit "red")
    = Some StatusError
  ∧ status <$> (Backend.orchestrate sample_backend Backend.short
                  (Js.lit "adopt 4-day work week") !! Js.lit "green")
    = Some StatusOk
  ∧ size (Backend.orchestrate sample_backend Backend.short
            (Js.lit "adopt 4-day work week")) = 6%nat.
Proof.
  destruct (orchestrate_one_result_per_role sample_backend Backend.short
              (Js.lit "adopt 4-day work week"))
    as (_ & _ & _ & _ & _ & _ & Hsize & Horder).
  split.
  - apply Horder. unfold Backend.fan_out. apply fmap_Permutation.
    apply (bool_decide_unpack _). by vm_compute.
  - split; [by vm_compute|]. split; [by vm_compute|]. exact Hsize.
Defined.

(** * Further properties of the component *)

(** ** The structured document *)

Section DocumentFacts.

Import Js.

Lemma trim_empty_or_clean s :
  trim s = [] ∨ (starts_clean (trim s) ∧ ends_clean (trim s)).
Proof.
  destruct (truthy (trim s)) eqn:Hne.
  - right. by apply trim_clean.
  - left. by destruct (trim s).
Qed.

Lemma trim_idempotent s : trim (trim s) = trim s.
Proof.
  destruct (trim_empty_or_clean s) as [->|[Hs He]]; [done|].
  by apply trim_fixed.
Qed.

Lemma has_text_trimmed x : has_text (Some (trimmed x)) = has_text x.
Proof. destruct x as [s|]; simpl; [|done]. by rewrite trim_idempotent. Qed.

Lemma trimmed_trimmed x : trimmed (Some (trimmed x)) = trimmed x.
Proof. destruct x as [s|]; simpl; [|done]. by rewrite trim_idempotent. Qed.

Lemma kept_sections_nil r :
  List.filter (λ hs, has_text hs.2) (template_sections r) = []
  ↔ any_field_has_text r = false.
Proof.
  unfold template_sections, any_field_has_text. simpl.
  destruct (has_text (f_topic r)), (has_text (f_decision r)),
    (has_text (f_stakeholders r)), (has_text (f_constraints r)),
    (has_text (f_context r)); simpl; split; (done || discriminate).
Qed.

(** The document is empty when no section is kept and clean at both ends
    otherwise. *)
Lemma buildStructuredText_shape r :
  (any_field_has_text r = false ∧ buildStructuredText r = [])
  ∨ (any_field_has_text r = true
     ∧ starts_clean (buildStructuredText r)
     ∧ ends_clean (buildStructuredText r)).
Proof.
  unfold buildStructuredText. cbv zeta. rewrite lines_of_sections.
  pose proof (kept_sections_present r) as Hall.
  pose proof (kept_sections_nil r) as Hnil.
  destruct (List.filter (λ hs, has_text hs.2) (template_sections r))
    as [|p ps] eqn:Hkept.
  - left. split; [by apply Hnil|done].
  - right. split.
    + destruct (any_field_has_text r); [done|].
      discriminate (proj2 Hnil eq_refl).
    + rewrite join_pushed by done.
      destruct (join_blocks_clean (p :: ps)) as [Hs He]; [done|done|].
      by rewrite trim_drops_final_newline.
Qed.

End DocumentFacts.

(** X1.  buildStructuredText returns the empty string exactly when none of
    the five fields holds text after trimming (a missing field counts as
    empty). *)
Theorem buildStructuredText_empty_iff_blank (r : Fields) :
  Js.truthy (buildStructuredText r) = any_field_has_text r.
Proof.
  destruct (buildStructuredText_shape r) as [[-> ->]|(-> & Hs & _)]; [done|].
  by destruct Hs as (c & t & -> & _).
Qed.

(** X2.  The document buildStructuredText returns never starts or ends with
    white space: trimming it again changes nothing. *)
Theorem buildStructuredText_is_trimmed (r : Fields) :
  Js.trim (buildStructuredText r) = buildStructuredText r.
Proof.
  destruct (buildStructuredText_shape r) as [[_ ->]|(_ & Hs & He)]; [done|].
  by apply trim_fixed.
Qed.

(** X3.  White space around a field never reaches the document, and a
    missing field is treated like an empty one: building from the trimmed
    fields gives the same document. *)
Theorem buildStructuredText_ignores_padding (r : Fields) :
  buildStructuredText (trimmed_fields r) = buildStructuredText r.
Proof.
  unfold buildStructuredText, push_section, trimmed_fields.
  cbn [f_topic f_decision f_stakeholders f_constraints f_context].
  by rewrite !has_text_trimmed, !trimmed_trimmed.
Qed.

(** ** The readiness guard *)

(** X4.  In text mode the form is ready to analyze exactly when at least
    one of the five fields holds text after trimming; in any other mode,
    exactly when a file is picked. *)
Theorem isReadyToAnalyze_characterised (st : State) :
  isReadyToAnalyze st
  = if bool_decide (mode st = Js.lit "text")
    then any_field_has_text (form_fields st)
    else bool_decide (is_Some (fileValue st)).
Proof.
  unfold isReadyToAnalyze. case_bool_decide as Hmode.
  - change (structuredText st) with (buildStructuredText (form_fields st)).
    destruct (buildStructuredText_shape (form_fields st))
      as [[-> ->]|(-> & Hs & He)]; [done|].
    rewrite trim_fixed by done. by destruct Hs as (c & t & -> & _).
  - destruct (fileValue st) as [file|].
    + by rewrite bool_decide_eq_true_2 by by eexists.
    + rewrite bool_decide_eq_false_2; [done|]. by intros [? ?].
Qed.

(** ** Submitting an analysis *)

Lemma structuredText_ready st :
  mode st = Js.lit "text" → isReadyToAnalyze st = true →
  Js.truthy (structuredText st) = true
  ∧ Js.trim (structuredText st) = structuredText st.
Proof.
  intros Hmode Hready. unfold isReadyToAnalyze in Hready.
  rewrite bool_decide_eq_true_2 in Hready by done.
  change (structuredText st) with (buildStructuredText (form_fields st)) in *.
  destruct (buildStructuredText_shape (form_fields st))
    as [[_ Hnil]|(_ & Hs & He)].
  - rewrite Hnil in Hready. discriminate Hready.
  - split; [by destruct Hs as (c & t & -> & _)|by apply trim_fixed].
Qed.

(** X5.  Outside text mode a submission without a picked file is refused
    whatever the template fields hold: the message is shown, nothing is
    sent, and the loading flag and the held analysis stay as they were. *)
Theorem handleAnalyze_without_file (st : State) :
  mode st ≠ Js.lit "text" →
  fileValue st = None →
  (handleAnalyze st).2 = []
  ∧ error (handleAnalyze st).1
    = Js.lit "Please enter a topic/problem statement or upload a PDF to continue."
  ∧ loading (handleAnalyze st).1 = loading st
  ∧ analysis (handleAnalyze st).1 = analysis st.
Proof.
  intros Hmode Hfile. unfold handleAnalyze, isReadyToAnalyze.
  rewrite bool_decide_eq_false_2 by done. by rewrite Hfile.
Qed.

Lemma handleAnalyze_without_file_witness :
  Js.truthy (topic sample_no_file_state) = true
  ∧ (handleAnalyze sample_no_file_state).2 = []
  ∧ Js.truthy (error (handleAnalyze sample_no_file_state).1) = true.
Proof.
  destruct (handleAnalyze_without_file sample_no_file_state)
    as (Hreq & Herr & _).
  - simpl. discriminate.
  - reflexivity.
  - split; [reflexivity|]. split; [exact Hreq|]. by rewrite Herr.
Defined.

(** X6.  In text mode the text that handleAnalyze sends is never empty and
    never starts or ends with white space: it is the structured document,
    which holds at least one section. *)
Theorem text_request_is_never_blank (st : State) (req : Request) :
  mode st = Js.lit "text" →
  req ∈ (handleAnalyze st).2 →
  body_string (Js.lit "text") req = Some (structuredText st)
  ∧ Js.truthy (structuredText st) = true
  ∧ Js.trim (structuredText st) = structuredText st.
Proof.
  intros Hmode Hin. unfold handleAnalyze in Hin.
  destruct (isReadyToAnalyze st) eqn:Hready; simpl in Hin;
    [|by apply elem_of_nil in Hin].
  apply list_elem_of_singleton in Hin as ->.
  split; [|by apply structuredText_ready].
  unfold analyze_request. rewrite Hmode. reflexivity.
Qed.

Lemma text_request_is_never_blank_witness :
  body_string (Js.lit "text") (analyze_request sample_state)
  = Some (Js.lit "# Topic / Problem Statement" ++ Js.newline
          ++ Js.lit "adopt 4-day work week")
  ∧ Js.trim (structuredText sample_state) = structuredText sample_state.
Proof.
  destruct (text_request_is_never_blank sample_state
              (analyze_request sample_state)) as (Hbody & _ & Htrim).
  - reflexivity.
  - vm_compute. apply list_elem_of_here.
  - split; [|exact Htrim]. rewrite Hbody. reflexivity.
Defined.

(** X7.  In PDF mode the template fields have no influence on what
    handleAnalyze sends: whatever is typed in them, the request (or its
    refusal) is the same. *)
Theorem pdf_request_ignores_template (st : State) (t d s c x : Js.str) :
  mode st = Js.lit "pdf" →
  (handleAnalyze (with_fields t d s c x st)).2 = (handleAnalyze st).2.
Proof.
  intros Hmode. unfold handleAnalyze, isReadyToAnalyze, analyze_request.
  cbn [with_fields setContext setConstraints setStakeholders setDecision
       setTopic mode fileValue answerLength].
  rewrite Hmode. rewrite bool_decide_eq_false_2 by discriminate.
  rewrite bool_decide_eq_true_2 by done.
  by destruct (fileValue st).
Qed.

Lemma pdf_request_ignores_template_witness :
  (handleAnalyze (with_fields (Js.lit "a") (Js.lit "b") [] [] [] sample_pdf_state)).2
  = [analyze_request sample_pdf_state].
Proof.
  rewrite (pdf_request_ignores_template sample_pdf_state) by reflexivity.
  reflexivity.
Defined.

(** X8.  In text mode a file picked earlier has no influence on what
    handleAnalyze sends. *)
Theorem text_request_ignores_file (st : State) (picked : option File) :
  mode st = Js.lit "text" →
  (handleAnalyze (setFileValue picked st)).2 = (handleAnalyze st).2.
Proof.
  intros Hmode. unfold handleAnalyze, isReadyToAnalyze, analyze_request.
  change (structuredText (setFileValue picked st)) with (structuredText st).
  cbn [setFileValue mode fileValue answerLength].
  rewrite Hmode. rewrite bool_decide_eq_true_2 by done.
  rewrite bool_decide_eq_false_2 by discriminate.
  by destruct (0 <? length (Js.trim (structuredText st)))%nat.
Qed.

Lemma text_request_ignores_file_witness :
  (handleAnalyze (setFileValue (Some sample_file) sample_state)).2
  = [analyze_request sample_state].
Proof.
  rewrite (text_request_ignores_file sample_state) by reflexivity.
  reflexivity.
Defined.

(** X9.  A failed analysis always ends with a message on screen and the
    loading flag down, and leaves the held analysis alone.  For a non-2xx
    answer whose detail is a string, or is falsy or absent, the message is
    that string, or "Analysis failed. Please try again." when there is
    none or it is empty.  For a non-2xx answer whose detail is a truthy
    value of another kind, the message is that value as a string, or
    "Something went wrong. Please try again." when that string is empty
    (an empty array).  For anything thrown, the TypeError of a body that is
    JSON null included, it is the error's own message, or "Something went
    wrong. Please try again." when that is empty. *)
Theorem analysis_failure_is_explained
    (st : State) (detail : option Js.str) (detail_text err_message : Js.str) :
  (loading (handleAnalyze_settled (NotOk detail) st) = false
   ∧ analysis (handleAnalyze_settled (NotOk detail) st) = analysis st
   ∧ Js.truthy (error (handleAnalyze_settled (NotOk detail) st)) = true
   ∧ error (handleAnalyze_settled (NotOk detail) st)
     = if has_text_raw detail then default [] detail
       else Js.lit "Analysis failed. Please try again.")
  ∧ (loading (handleAnalyze_settled (NotOkOther detail_text) st) = false
     ∧ analysis (handleAnalyze_settled (NotOkOther detail_text) st) = analysis st
     ∧ Js.truthy (error (handleAnalyze_settled (NotOkOther detail_text) st)) = true
     ∧ error (handleAnalyze_settled (NotOkOther detail_text) st)
       = if Js.truthy detail_text then detail_text
         else Js.lit "Something went wrong. Please try again.")
  ∧ (loading (handleAnalyze_settled (Rejected err_message) st) = false
     ∧ analysis (handleAnalyze_settled (Rejected err_message) st) = analysis st
     ∧ Js.truthy (error (handleAnalyze_settled (Rejected err_message) st)) = true
     ∧ error (handleAnalyze_settled (Rejected err_message) st)
       = if Js.truthy err_message then err_message
         else Js.lit "Something went wrong. Please try again.").
Proof.
  split; [|split].
  - destruct detail as [[|c d]|]; repeat split; reflexivity.
  - destruct detail_text as [|c m]; repeat split; reflexivity.
  - destruct err_message as [|c m]; repeat split; reflexivity.
Qed.

(** ** Invariants of a session *)

Lemma sample_loading_state_reachable : reachable sample_loading_state.
Proof.
  apply run_reachable; [constructor|].
  cbn [all_enabled]. by repeat split.
Qed.

Lemma sample_mobile_state_reachable : reachable sample_mobile_state.
Proof.
  apply run_reachable; [apply sample_state_reachable|].
  cbn [all_enabled]. split; [exact I|]. split; [|exact I].
  split; [reflexivity|]. by eexists.
Qed.

(** X10.  While an analysis is in flight no analysis is held: the previous
    results are gone from the moment the request leaves until it settles. *)
Theorem loading_holds_no_analysis (st : State) :
  reachable st → loading st = true → analysis st = None.
Proof.
  induction 1 as [|st ev Hst IH Hen]; [discriminate|].
  destruct ev; try exact IH.
  - (* handleAnalyze *)
    simpl. unfold handleAnalyze. destruct (isReadyToAnalyze st); simpl; auto.
  - (* its settlement lowers the flag *)
    simpl. destruct o as [m|d|dt|a [len|]]; simpl; discriminate.
  - simpl. unfold handleDownload.
    destruct (analysis st) eqn:Ha; simpl; rewrite ?Ha; exact IH.
  - simpl. destruct o; exact IH.
  - simpl. unfold handleCopy. by repeat case_match.
  - simpl. destruct (analysis st) eqn:Ha; simpl; rewrite ?Ha; exact IH.
  - simpl. by destruct mobile.
Qed.

Lemma loading_holds_no_analysis_witness :
  loading sample_loading_state = true ∧ analysis sample_loading_state = None.
Proof.
  split; [reflexivity|].
  exact (loading_holds_no_analysis sample_loading_state
           sample_loading_state_reachable eq_refl).
Defined.

(** X11.  The collapsed hat menu is only ever open on a mobile screen: the
    media-query update closes it when the screen stops being mobile, and
    only the mobile button opens it. *)
Theorem hat_menu_open_only_on_mobile (st : State) :
  reachable st → hatMenuOpen st = true → isMobile st = true.
Proof.
  induction 1 as [|st ev Hst IH Hen]; [discriminate|].
  destruct ev; try exact IH.
  - simpl. unfold handleAnalyze. by destruct (isReadyToAnalyze st).
  - simpl. destruct o as [m|d|dt|a [len|]]; simpl; (exact IH || discriminate).
  - simpl. unfold handleDownload. destruct (analysis st); exact IH.
  - simpl. destruct o; exact IH.
  - simpl. unfold handleCopy. by repeat case_match.
  - destruct Hen as [Hmobile _]. simpl. by destruct (analysis st).
  - simpl. discriminate.
  - simpl. destruct mobile; simpl; [done|discriminate].
Qed.

Lemma hat_menu_open_only_on_mobile_witness :
  hatMenuOpen sample_mobile_state = true ∧ isMobile sample_mobile_state = true.
Proof.
  split; [reflexivity|].
  exact (hat_menu_open_only_on_mobile sample_mobile_state
           sample_mobile_state_reachable eq_refl).
Defined.

Lemma answerLength_reachable st :
  reachable st → Js.truthy (answerLength st) = true.
Proof.
  induction 1 as [|st ev Hst IH Hen]; [reflexivity|].
  destruct ev; try exact IH; try reflexivity.
  - simpl. unfold handleAnalyze. by destruct (isReadyToAnalyze st).
  - simpl. destruct o as [m|d|dt|a [len|]]; simpl; try exact IH.
    unfold handleAnalyze_settled. by destruct (Js.truthy len) eqn:Hlen.
  - simpl. unfold handleDownload. destruct (analysis st); exact IH.
  - simpl. destruct o; exact IH.
  - simpl. unfold handleCopy. by repeat case_match.
  - simpl. by destruct (analysis st).
  - simpl. by destruct mobile.
Qed.

(** X12.  Every request carries a non-empty answer_length: the answer
    length cell starts as long, the two buttons store long or short, and a
    server answer replaces it only by a non-empty value. *)
Theorem answer_length_is_always_sent (st : State) (ev : Event) (req : Request) :
  reachable st →
  req ∈ (handle ev st).2 →
  body_string (Js.lit "answer_length") req = Some (answerLength st)
  ∧ Js.truthy (answerLength st) = true.
Proof.
  intros Hst Hin. split; [|by apply answerLength_reachable].
  destruct ev; simpl in Hin; try (by apply elem_of_nil in Hin).
  - unfold handleAnalyze in Hin.
    destruct (isReadyToAnalyze st); simpl in Hin; [|by apply elem_of_nil in Hin].
    apply list_elem_of_singleton in Hin as ->.
    unfold analyze_request. by repeat case_match.
  - unfold handleDownload in Hin.
    destruct (analysis st); simpl in Hin; [|by apply elem_of_nil in Hin].
    by apply list_elem_of_singleton in Hin as ->.
Qed.

Lemma answer_length_is_always_sent_witness :
  body_string (Js.lit "answer_length") (analyze_request sample_state)
  = Some (Js.lit "short").
Proof.
  exact (proj1 (answer_length_is_always_sent sample_state ClickAnalyze
                  (analyze_request sample_state) sample_state_reachable
                  (list_elem_of_here _ _))).
Defined.

(** X13.  A handler issues at most one request, always a POST to the
    submit-analysis or the generate-report endpoint, and only the two
    buttons "Generate hat outputs" and "Download report" issue any. *)
Theorem requests_only_post_to_api (st : State) (ev : Event) :
  (length (handle ev st).2 ≤ 1)%nat
  ∧ forallb is_api_post (handle ev st).2 = true
  ∧ match ev with
    | ClickAnalyze | ClickDownload => True
    | _ => (handle ev st).2 = []
    end.
Proof.
  destruct ev; try (by repeat split; simpl; lia); simpl.
  - unfold handleAnalyze, analyze_request.
    repeat case_match; repeat split; simpl; lia.
  - unfold handleDownload. destruct (analysis st); repeat split; simpl; lia.
Qed.

(** ** Exporting *)

(** X14.  A successful export is a round trip on the state: once the
    download has settled the component is exactly where it was before the
    click.  A failed one differs only by the message it leaves. *)
Theorem export_round_trip (st : State) (o : DownloadOutcome) :
  downloadLoading st = false →
  handleDownload_settled DownloadOk (handleDownload st).1 = st
  ∧ setError (error st) (handleDownload_settled o (handleDownload st).1) = st
  ∧ (o ≠ DownloadOk →
     Js.truthy (error (handleDownload_settled o (handleDownload st).1)) = true).
Proof.
  intros Hdl. destruct st as [m t d s c x f a h l e dl al n mob menu].
  simpl in Hdl. subst dl. unfold handleDownload. simpl.
  destruct a as [a|]; simpl.
  - split; [done|]. split; [by destruct o|].
    destruct o as [[|ch msg]| |]; simpl; done.
  - split; [done|]. split; [by destruct o|].
    destruct o as [[|ch msg]| |]; simpl; done.
Qed.

Lemma export_round_trip_witness :
  handleDownload_settled DownloadOk (handleDownload sample_state).1 = sample_state
  ∧ error (handleDownload_settled DownloadNotOk (handleDownload sample_state).1)
    = Js.lit "Failed to generate PDF report.".
Proof.
  split; [|reflexivity].
  exact (proj1 (export_round_trip sample_state DownloadOk eq_refl)).
Defined.

(** ** Notes *)

(** X15.  Writing or clearing a note touches the selected hat only, and no
    other handler touches any note: whatever happens, the note of a hat
    that is not selected stays as it is. *)
Theorem notes_of_other_hats_survive (st : State) (ev : Event) (k : Js.str) :
  k ≠ selectedHat st →
  notesByHat (handle ev st).1 !! k = notesByHat st !! k.
Proof.
  intros Hk. destruct (notesByHat_step ev st) as [->|[v ->]]; [done|].
  by rewrite lookup_insert_ne.
Qed.

Lemma notes_of_other_hats_survive_witness :
  notesByHat (handle ClickClearNotes
                (handle (ChangeNotes (Js.lit "agenda first"))
                   (setSelectedHat (Js.lit "blue") sample_state)).1).1
    !! Js.lit "green"
  = Some (Js.lit "pilot first").
Proof.
  rewrite !notes_of_other_hats_survive by (simpl; discriminate).
  reflexivity.
Defined.

(** X16.  Only the two notes handlers write the notes: every other event,
    a new analysis and its answer included, leaves all six notes as they
    are. *)
Theorem notes_survive_other_events (st : State) (ev : Event) :
  writes_notes ev = false →
  notesByHat (handle ev st).1 = notesByHat st.
Proof.
  intros Hev. destruct ev; try discriminate Hev; try reflexivity; simpl.
  - unfold handleAnalyze. by destruct (isReadyToAnalyze st).
  - destruct o as [m|d|dt|a [len|]]; try reflexivity.
    unfold handleAnalyze_settled. by destruct (Js.truthy len).
  - unfold handleDownload. by destruct (analysis st).
  - by destruct o.
  - unfold handleCopy. by repeat case_match.
  - by destruct (analysis st).
  - by destruct mobile.
Qed.

Lemma notes_survive_other_events_witness :
  notesByHat (handle (AnalyzeSettled (Ok200 None None))
                (handle ClickAnalyze sample_state).1).1
  = notesByHat sample_state.
Proof.
  rewrite !notes_survive_other_events by reflexivity.
  reflexivity.
Defined.

(** X17.  The notes text area reads back what was typed for the selected
    hat; after "Clear notes" it is empty and the button is disabled. *)
Theorem notes_read_back (st : State) (v : Js.str) :
  notes_value (handle (ChangeNotes v) st).1 = v
  ∧ notes_value (handle ClickClearNotes st).1 = []
  ∧ ¬ enabled ClickClearNotes (handle ClickClearNotes st).1.
Proof.
  unfold notes_value. simpl. rewrite !lookup_insert_eq. simpl.
  split; [by destruct v|]. split; [done|].
  intros (w & Hw & Hne). injection Hw as <-. discriminate Hne.
Qed.

(** ** The hat selector *)

Lemma selectedHat_cases st :
  reachable st →
  selectedHat st = Js.lit "blue" ∨ selectedHat st = Js.lit "white"
  ∨ selectedHat st = Js.lit "red" ∨ selectedHat st = Js.lit "yellow"
  ∨ selectedHat st = Js.lit "black" ∨ selectedHat st = Js.lit "green".
Proof.
  intros Hst. pose proof (selectedHat_reachable st Hst) as Hin.
  unfold hat_keys in Hin. rewrite !elem_of_cons, elem_of_nil in Hin. tauto.
Qed.

(** X18.  In every reachable state the hat selector shows exactly one
    selected button, the button of the selected hat, and every button has
    a label. *)
Theorem exactly_one_tab_selected (st : State) :
  reachable st →
  tab_key <$> List.filter aria_selected (hat_tabs st) = [selectedHat st]
  ∧ Forall (λ b, is_Some (tab_label b)) (hat_tabs st).
Proof.
  intros Hst. unfold hat_tabs, activeHat.
  destruct (selectedHat_cases st Hst) as [H|[H|[H|[H|[H|H]]]]]; rewrite H;
    destruct (isMobile st), (hatMenuOpen st); simpl;
    (split; [reflexivity|repeat constructor; by eexists]).
Qed.

Lemma exactly_one_tab_selected_witness :
  tab_key <$> List.filter aria_selected (hat_tabs sample_mobile_state)
  = [Js.lit "green"]
  ∧ length (hat_tabs sample_mobile_state) = 6%nat.
Proof.
  split; [|reflexivity].
  exact (proj1 (exactly_one_tab_selected sample_mobile_state
                  sample_mobile_state_reachable)).
Defined.

(** X19.  On a wide screen the selector shows the six hats in the order of
    HATS; on a mobile screen with the menu open it shows the selected hat
    first and then the five others, so again every hat exactly once; with
    the menu closed it shows the selected hat alone. *)
Theorem hat_tabs_cover_the_hats (st : State) :
  reachable st →
  (isMobile st = false → tab_key <$> hat_tabs st = hat_keys)
  ∧ (isMobile st = true → hatMenuOpen st = true →
     tab_key <$> hat_tabs st ≡ₚ hat_keys
     ∧ head (tab_key <$> hat_tabs st) = Some (selectedHat st))
  ∧ (isMobile st = true → hatMenuOpen st = false →
     tab_key <$> hat_tabs st = [selectedHat st]).
Proof.
  intros Hst. unfold hat_tabs.
  split; [by intros ->|]. split.
  - intros -> ->.
    destruct (selectedHat_cases st Hst) as [H|[H|[H|[H|[H|H]]]]]; rewrite H;
      (split; [|reflexivity]); apply (bool_decide_unpack _); by vm_compute.
  - by intros -> ->.
Qed.

Lemma hat_tabs_cover_the_hats_witness :
  tab_key <$> hat_tabs sample_mobile_state
  = [Js.lit "green"; Js.lit "blue"; Js.lit "white"; Js.lit "red";
     Js.lit "yellow"; Js.lit "black"]
  ∧ tab_key <$> hat_tabs sample_mobile_state ≡ₚ hat_keys
  ∧ tab_key <$> hat_tabs sample_state = hat_keys.
Proof.
  split; [reflexivity|].
  destruct (hat_tabs_cover_the_hats sample_mobile_state
              sample_mobile_state_reachable) as (_ & Hopen & _).
  destruct (hat_tabs_cover_the_hats sample_state sample_state_reachable)
    as (Hwide & _ & _).
  split; [exact (proj1 (Hopen eq_refl eq_refl))|exact (Hwide eq_refl)].
Defined.

(** X20.  Picking a hat from the open mobile menu always changes the
    selected hat to the picked one, which differs from the previous one,
    and closes the menu. *)
Theorem mobile_pick_changes_hat (st : State) (hat : Hat) :
  enabled (ClickOtherHatTab hat) st →
  selectedHat (handle (ClickOtherHatTab hat) st).1 = key hat
  ∧ selectedHat (handle (ClickOtherHatTab hat) st).1 ≠ selectedHat st
  ∧ hatMenuOpen (handle (ClickOtherHatTab hat) st).1 = false
  ∧ hat ∈ HATS.
Proof.
  intros (_ & _ & Hin & _).
  apply list_elem_of_In, List.filter_In in Hin as [Hin Hne].
  apply negb_true_iff, bool_decide_eq_false in Hne.
  split; [done|]. split; [done|]. split; [done|]. by apply list_elem_of_In.
Qed.

Lemma mobile_pick_changes_hat_witness :
  selectedHat sample_mobile_state = Js.lit "green"
  ∧ selectedHat (handle (ClickOtherHatTab
                           {| key := Js.lit "red"; label := Js.lit "Red";
                              description := Js.lit "Feelings & intuitions";
                              prompt := Js.lit "Surface gut reactions, hopes, fears, and stakeholder emotions (no justification needed)." |})
                   sample_mobile_state).1 = Js.lit "red".
Proof.
  split; [reflexivity|].
  refine (proj1 (mobile_pick_changes_hat sample_mobile_state _ _)).
  split; [reflexivity|]. split; [reflexivity|]. split; [|by eexists].
  apply list_elem_of_In. vm_compute. tauto.
Defined.

(** ** The analysis card and the copy button *)

(** X21.  The analysis card never shows more than one of its three views,
    and it shows none exactly when an analysis is held that has no entry
    for the selected hat. *)
Theorem analysis_card_views (st : State) :
  (length (analysis_card st) ≤ 1)%nat
  ∧ (analysis_card st = []
     ↔ ∃ a, analysis st = Some a ∧ a !! selectedHat st = None).
Proof.
  unfold analysis_card, no_analysis, activeAnalysis.
  destruct (analysis st) as [a|]; simpl.
  - destruct (a !! selectedHat st) as [[r [] c m]|] eqn:Ha; simpl.
    + split; [lia|]. split; [done|]. intros (a' & [= <-] & Hnone). congruence.
    + split; [lia|]. split; [done|]. intros (a' & [= <-] & Hnone). congruence.
    + split; [lia|]. split; [|done]. intros _. by exists a.
  - split; [lia|]. split; [done|]. by intros (a' & ? & _).
Qed.

(** X22.  The copy button is enabled exactly when the card shows the
    content of the selected hat; a copy then changes nothing when the
    clipboard accepts it and only leaves a message when it does not. *)
Theorem copy_enabled_iff_content_shown (st : State) (clipboard_ok : bool) :
  (enabled (ClickCopy clipboard_ok) st
   ↔ ∃ active, activeAnalysis st = Some active
        ∧ analysis_card st = [ContentCard (content active)])
  ∧ handleCopy true st = st
  ∧ setError (error st) (handleCopy false st) = st.
Proof.
  split; [|split].
  - unfold enabled, analysis_card, no_analysis, activeAnalysis.
    destruct (analysis st) as [a|]; simpl.
    + destruct (a !! selectedHat st) as [[r [] c m]|]; simpl.
      * split; [intros _; by eexists|]. intros _. split; [by eexists|done].
      * split; [by intros [_ ?]|]. by intros (? & [= <-] & ?).
      * split; [by intros [_ ?]|]. by intros (? & ? & _).
    + split; [by intros [[? ?] _]|]. by intros (? & ? & _).
  - unfold handleCopy. by repeat case_match.
  - unfold handleCopy. destruct st. by repeat case_match.
Qed.

(** ** The analysis cycle *)

(** X23.  The mode cell only ever holds text or pdf, so the page always
    shows either the template or the upload control. *)
Theorem mode_is_text_or_pdf (st : State) :
  reachable st → mode st = Js.lit "text" ∨ mode st = Js.lit "pdf".
Proof.
  induction 1 as [|st ev Hst IH Hen]; [by left|].
  destruct ev; try exact IH.
  - by left.
  - by right.
  - simpl. unfold handleAnalyze. by destruct (isReadyToAnalyze st).
  - simpl. destruct o as [m|d|dt|a [len|]]; try exact IH.
    unfold handleAnalyze_settled. by destruct (Js.truthy len).
  - simpl. unfold handleDownload. by destruct (analysis st).
  - simpl. by destruct o.
  - simpl. unfold handleCopy. by repeat case_match.
  - simpl. by destruct (analysis st).
  - simpl. by destruct mobile.
Qed.

Lemma mode_is_text_or_pdf_witness :
  mode sample_pdf_state = Js.lit "text" ∨ mode sample_pdf_state = Js.lit "pdf".
Proof.
  exact (mode_is_text_or_pdf sample_pdf_state sample_pdf_state_reachable).
Defined.

(** X24.  A submission that goes out and is answered with an analysis ends
    with that analysis held, the blue hat selected, the hat menu closed, no
    message on screen and the loading flag down; the typed document and the
    notes are as before. *)
Theorem answered_analysis_cycle
    (st : State) (a : AnalysisResult) (len : option Js.str) :
  isReadyToAnalyze st = true →
  analysis (handleAnalyze_settled (Ok200 (Some a) len) (handleAnalyze st).1) = Some a
  ∧ selectedHat (handleAnalyze_settled (Ok200 (Some a) len) (handleAnalyze st).1)
    = Js.lit "blue"
  ∧ hatMenuOpen (handleAnalyze_settled (Ok200 (Some a) len) (handleAnalyze st).1)
    = false
  ∧ error (handleAnalyze_settled (Ok200 (Some a) len) (handleAnalyze st).1) = []
  ∧ loading (handleAnalyze_settled (Ok200 (Some a) len) (handleAnalyze st).1)
    = false
  ∧ structuredText (handleAnalyze_settled (Ok200 (Some a) len) (handleAnalyze st).1)
    = structuredText st
  ∧ notesByHat (handleAnalyze_settled (Ok200 (Some a) len) (handleAnalyze st).1)
    = notesByHat st.
Proof.
  intros Hready. unfold handleAnalyze. rewrite Hready. simpl.
  destruct len as [len|]; [destruct (Js.truthy len)|]; by repeat split.
Qed.

Lemma answered_analysis_cycle_witness :
  selectedHat sample_state = Js.lit "green"
  ∧ selectedHat (handleAnalyze_settled (Ok200 (Some sample_analysis) None)
                   (handleAnalyze sample_state).1) = Js.lit "blue".
Proof.
  split; [reflexivity|].
  exact (proj1 (proj2 (answered_analysis_cycle sample_state sample_analysis
                         None eq_refl))).
Defined.

(** X25.  A submission that goes out and fails loses the analysis held
    before: the click drops it and the failure does not bring it back.  A
    submission refused by the readiness guard keeps it. *)
Theorem failed_analysis_drops_results
    (st : State) (detail : option Js.str) (err_message : Js.str) :
  (isReadyToAnalyze st = true →
   analysis (handleAnalyze_settled (NotOk detail) (handleAnalyze st).1) = None
   ∧ analysis (handleAnalyze_settled (Rejected err_message) (handleAnalyze st).1)
     = None
   ∧ analysis (handleAnalyze_settled (NotOkOther err_message) (handleAnalyze st).1)
     = None)
  ∧ (isReadyToAnalyze st = false → analysis (handleAnalyze st).1 = analysis st).
Proof.
  unfold handleAnalyze. split; intros ->; by simpl.
Qed.

Lemma failed_analysis_drops_results_witness :
  is_Some (analysis sample_state)
  ∧ analysis (handleAnalyze_settled (NotOk None) (handleAnalyze sample_state).1)
    = None.
Proof.
  split; [by eexists|].
  exact (proj1 (proj1 (failed_analysis_drops_results sample_state None [])
                  eq_refl)).
Defined.

Lemma in_flight_step ev st :
  enabled ev st →
  (length (analyze_requests (handle ev st).2) + in_flight (loading st)
   = in_flight (settles_analysis ev) + in_flight (loading (handle ev st).1))%nat.
Proof.
  destruct ev; intros Hen; try reflexivity.
  - simpl in Hen. simpl. unfold handleAnalyze.
    destruct (isReadyToAnalyze st); simpl; rewrite Hen; [|reflexivity].
    unfold analyze_request. by repeat case_match.
  - simpl in Hen. simpl. rewrite Hen.
    destruct o as [m|d|dt|a [len|]]; reflexivity.
  - simpl. unfold handleDownload. by destruct (analysis st).
  - simpl. by destruct o.
  - simpl. unfold handleCopy. by repeat case_match.
  - simpl. by destruct (analysis st).
  - simpl. by destruct mobile.
Qed.

(** X26.  Analyses never overlap: along any run of events the page can
    deliver, the submit-analysis requests issued are the ones already
    settled plus at most one in flight, and one is in flight exactly while
    the loading flag is up. *)
Theorem analyses_never_overlap (st : State) (evs : list Event) :
  all_enabled evs st →
  (length (analyze_requests (run evs st).2) + in_flight (loading st)
   = length (List.filter settles_analysis evs)
     + in_flight (loading (run evs st).1))%nat.
Proof.
  revert st. induction evs as [|ev evs IH]; intros st Hen; [simpl; lia|].
  destruct Hen as [Hev Hevs].
  rewrite run_cons_requests, run_cons_state. unfold analyze_requests in *.
  rewrite List.filter_app, length_app.
  pose proof (in_flight_step ev st Hev) as Hstep.
  pose proof (IH _ Hevs) as Hrest.
  unfold analyze_requests in Hstep.
  cbn [List.filter]. destruct (settles_analysis ev); simpl in *; lia.
Qed.

Lemma analyses_never_overlap_witness :
  length (analyze_requests (run sample_events initial_state).2) = 1%nat
  ∧ loading (run sample_events initial_state).1 = false.
Proof.
  split; [|reflexivity].
  assert (Hen : all_enabled sample_events initial_state).
  { unfold sample_events. cbn [all_enabled].
    split; [reflexivity|]. split; [reflexivity|]. split; [reflexivity|].
    split; [|by split].
    split; [reflexivity|]. split; [|by eexists].
    unfold HATS. do 5 apply list_elem_of_further. apply list_elem_of_here. }
  pose proof (analyses_never_overlap initial_state sample_events Hen) as Hcount.
  exact Hcount.
Defined.
